(** * Order intake service ([publisher/publisher.py])

    A shallow embedding of the Flask application: the intake handler
    [submit_order] (route [/], GET and POST) and the read-back handler
    [request_page] (route [/request/<uuid:request_id>]), together with the
    parts of the Python runtime they rely on: [float] applied to a form
    field, [repr] of a float, [uuid.UUID] and its textual form,
    [json.dumps], exceptions and unbound local variables.

    Text is modelled as [string] whose characters are the code points 0..255.
    A Python [float] is an IEEE 754 binary64 value, modelled by [spec_float]
    with [prec = 53] and [emax = 1024]. *)

From Stdlib Require Import ZArith NArith String Ascii List Lia.
From Stdlib Require Import Floats.SpecFloat.
From stdpp Require Import gmap strings list fin_maps.

Local Open Scope string_scope.

(** ** Python floats *)
Module PyFloat.

Local Open Scope Z_scope.

Definition prec : Z := 53.
Definition emax : Z := 1024.

Definition zero : spec_float := S754_zero false.

(** [x < y] and [x >= y] on floats; every comparison with NaN is false. *)
Definition lt (x y : spec_float) : bool := SFltb x y.
Definition ge (x y : spec_float) : bool := SFleb y x.

Definition code (c : ascii) : N := N_of_ascii c.

(** Characters that [float] strips from both ends of its argument: the
    ASCII blanks 9 to 13 and 32, and the two blanks 133 and 160 above 127.
    The separators 28 to 31 are not stripped. *)
Definition is_space (c : ascii) : bool :=
  let n := code c in
  ((9 <=? n) && (n <=? 13) || (n =? 32) || (n =? 133) || (n =? 160))%N.

Definition is_digit (c : ascii) : bool :=
  let n := code c in ((48 <=? n) && (n <=? 57))%N.

Definition digit_value (c : ascii) : Z := Z.of_N (code c) - 48.

Definition to_lower (c : ascii) : ascii :=
  let n := code c in
  if ((65 <=? n) && (n <=? 90))%N then ascii_of_N (n + 32) else c.

Fixpoint lstrip (l : list ascii) : list ascii :=
  match l with
  | c :: r => if is_space c then lstrip r else l
  | [] => []
  end.

Definition strip (l : list ascii) : list ascii :=
  rev (lstrip (rev (lstrip l))).

(** Digit grouping: an underscore is accepted only between two digits and
    is dropped; [prev] is the character before the head of the list. *)
Fixpoint drop_underscores (prev : option ascii) (l : list ascii)
  : option (list ascii) :=
  match l with
  | [] =>
      match prev with
      | Some "_"%char => None
      | _ => Some []
      end
  | c :: r =>
      if Ascii.eqb c "_" then
        match prev with
        | Some p => if is_digit p then drop_underscores (Some c) r else None
        | None => None
        end
      else
        let ok :=
          match prev with
          | Some "_"%char => is_digit c
          | _ => true
          end in
        if ok then option_map (cons c) (drop_underscores (Some c) r) else None
  end.

Definition take_sign (l : list ascii) : bool * list ascii :=
  match l with
  | "-"%char :: r => (true, r)
  | "+"%char :: r => (false, r)
  | _ => (false, l)
  end.

Fixpoint span_digits (l : list ascii) : list ascii * list ascii :=
  match l with
  | c :: r =>
      if is_digit c then let '(d, t) := span_digits r in (c :: d, t)
      else ([], l)
  | [] => ([], [])
  end.

Definition digits_value (ds : list ascii) : Z :=
  fold_left (fun acc c => 10 * acc + digit_value c) ds 0.

(** The decimal literal [digits [. digits] [(e|E) [sign] digits]] with at
    least one digit before the exponent, read as [m * 10 ^ e]. *)
Definition parse_decimal (l : list ascii) : option (Z * Z) :=
  let '(ip, r1) := span_digits l in
  let '(fp, r2) :=
    match r1 with
    | "."%char :: r => span_digits r
    | _ => ([], r1)
    end in
  match (ip ++ fp)%list with
  | [] => None
  | ds =>
      let m := digits_value ds in
      let shift := Z.of_nat (length fp) in
      match r2 with
      | [] => Some (m, - shift)
      | c :: r3 =>
          if Ascii.eqb (to_lower c) "e" then
            let '(eneg, r4) := take_sign r3 in
            match span_digits r4 with
            | ((_ :: _) as ed, []) =>
                let ev := digits_value ed in
                Some (m, (if eneg then - ev else ev) - shift)
            | _ => None
            end
          else None
      end
  end.

(** [m * 10 ^ e] rounded to the nearest binary64 value, ties to even;
    values beyond the largest finite float become infinite. *)
Definition float_of_decimal (neg : bool) (m e : Z) : spec_float :=
  if m =? 0 then S754_zero neg
  else
    let num := m * 10 ^ Z.max e 0 in
    let den := 10 ^ Z.max (- e) 0 in
    let '(q, e', l) := SFdiv_core_binary prec emax num 0 den 0 in
    binary_round_aux prec emax neg q e' l.

Definition parse_inf_or_nan (neg : bool) (l : list ascii) : option spec_float :=
  let w := string_of_list_ascii (map to_lower l) in
  if String.eqb w "inf" || String.eqb w "infinity" then Some (S754_infinity neg)
  else if String.eqb w "nan" then Some S754_nan
  else None.

(** [float(s)] for a text [s]; [None] stands for [ValueError]. *)
Definition float (s : string) : option spec_float :=
  match drop_underscores None (list_ascii_of_string s) with
  | None => None
  | Some l =>
      let '(neg, body) := take_sign (strip l) in
      match parse_decimal body with
      | Some (m, e) => Some (float_of_decimal neg m e)
      | None => parse_inf_or_nan neg body
      end
  end.

End PyFloat.

(** ** [float.__repr__] *)
Module PyRepr.

Local Open Scope Z_scope.

Definition digit_char (d : Z) : ascii := ascii_of_N (48 + Z.to_N d).

(** The decimal digits of a positive integer, most significant first. *)
Fixpoint digits_fuel (fuel : nat) (n : Z) (acc : list ascii) : list ascii :=
  match fuel with
  | O => acc
  | S fuel' =>
      if n =? 0 then acc
      else digits_fuel fuel' (n / 10) (digit_char (n mod 10) :: acc)
  end.

Definition decimal_digits (n : Z) : list ascii :=
  if n =? 0 then ["0"%char]
  else digits_fuel (S (Z.to_nat (Z.log2 n))) n [].

Fixpoint strip_zeros_rev (l : list ascii) : list ascii :=
  match l with
  | "0"%char :: r => strip_zeros_rev r
  | _ => l
  end.

(** Trailing zeros removed, at least one digit kept. *)
Definition strip_trailing_zeros (l : list ascii) : list ascii :=
  match rev (strip_zeros_rev (rev l)) with
  | [] => ["0"%char]
  | l' => l'
  end.

(** A positive finite float [m * 2 ^ e] as a fraction. *)
Definition fraction (m : positive) (e : Z) : Z * Z :=
  if 0 <=? e then (Zpos m * 2 ^ e, 1) else (Zpos m, 2 ^ (- e)).

(** [num / den < 10 ^ d] *)
Definition below_pow10 (num den d : Z) : bool :=
  if 0 <=? d then num <? den * 10 ^ d else num * 10 ^ (- d) <? den.

Fixpoint first_below (steps : nat) (num den d : Z) : Z :=
  match steps with
  | O => d
  | S steps' =>
      if below_pow10 num den d then d else first_below steps' num den (d + 1)
  end.

(** The position of the decimal point: the [d] with
    [10 ^ (d - 1) <= num / den < 10 ^ d]. *)
Definition decimal_point (num den : Z) : Z :=
  let g := (Z.log2 num - Z.log2 den) * 30103 / 100000 in
  first_below 6 num den (g - 2).

(** [num / den * 10 ^ k] as quotient, remainder and divisor. *)
Definition scaled (num den k : Z) : Z * Z * Z :=
  let n := if 0 <=? k then num * 10 ^ k else num in
  let d := if 0 <=? k then den else den * 10 ^ (- k) in
  (n / d, n mod d, d).

(** Does the decimal [c * 10 ^ k] read back as the float [m * 2 ^ e]? *)
Definition reads_back (m : positive) (e c k : Z) : bool :=
  match PyFloat.float_of_decimal false c k with
  | S754_finite false m' e' => Pos.eqb m' m && (e' =? e)
  | _ => false
  end.

(** The shortest decimal, of at most 17 digits, that reads back as the
    float; of the two neighbours with [n] digits the nearer one is taken
    when both read back. The result is the integer of the digits and the
    power of ten it is multiplied by. *)
Fixpoint shortest (steps : nat) (m : positive) (e num den d n : Z) : Z * Z :=
  let '(q, r, dv) := scaled num den (n - d) in
  let nearest := if 2 * r <? dv then q
                 else if dv <? 2 * r then q + 1
                 else if Z.even q then q else q + 1 in
  match steps with
  | O => (nearest, d - n)
  | S steps' =>
      let lo := reads_back m e q (d - n) in
      let hi := reads_back m e (q + 1) (d - n) in
      if lo && hi then (nearest, d - n)
      else if lo then (q, d - n)
      else if hi then (q + 1, d - n)
      else shortest steps' m e num den d (n + 1)
  end.

Fixpoint zeros (n : nat) : list ascii :=
  match n with O => [] | S n' => "0"%char :: zeros n' end.

(** The exponent of the scientific form: a sign and at least two digits. *)
Definition exponent_text (x : Z) : list ascii :=
  let ds := decimal_digits (Z.abs x) in
  (if x <? 0 then "-"%char else "+"%char)
    :: (if Z.abs x <? 10 then "0"%char :: ds else ds).

(** The digits [ds] with the decimal point after [point] of them, in the
    layout of [repr]: scientific when [point <= -4] or [point > 16]. *)
Definition layout (ds : list ascii) (point : Z) : list ascii :=
  if (point <=? -4) || (16 <? point) then
    match ds with
    | [] => []
    | d1 :: rest =>
        (d1 :: match rest with [] => [] | _ => "."%char :: rest end)
          ++ "e"%char :: exponent_text (point - 1)
    end
  else if point <=? 0 then
    "0"%char :: "."%char :: zeros (Z.to_nat (- point)) ++ ds
  else if Z.of_nat (length ds) <=? point then
    ds ++ zeros (Z.to_nat (point - Z.of_nat (length ds))) ++ ["."%char; "0"%char]
  else
    take (Z.to_nat point) ds ++ "."%char :: drop (Z.to_nat point) ds.

Definition repr_finite (m : positive) (e : Z) : list ascii :=
  let '(num, den) := fraction m e in
  let d := decimal_point num den in
  let '(c, k) := shortest 16 m e num den d 1 in
  let all := decimal_digits c in
  layout (strip_trailing_zeros all) (Z.of_nat (length all) + k).

(** [repr(x)], which is also [str(x)]. *)
Definition repr (x : spec_float) : string :=
  match x with
  | S754_nan => "nan"
  | S754_infinity false => "inf"
  | S754_infinity true => "-inf"
  | S754_zero false => "0.0"
  | S754_zero true => "-0.0"
  | S754_finite s m e =>
      string_of_list_ascii
        ((if s then ["-"%char] else []) ++ repr_finite m e)
  end.

End PyRepr.

(** ** Identifiers: [uuid.UUID] and the [uuid] URL converter *)
Module UUID.

(** A [uuid.UUID] object is determined by its [int] attribute, a number
    below [2 ^ 128]. *)
Definition uuid : Type := N.

Definition wf (u : uuid) : Prop := (u < 2 ^ 128)%N.

Definition hex_char (d : N) : ascii :=
  if (d <? 10)%N then ascii_of_N (48 + d) else ascii_of_N (87 + d).

(** Value of one character of [[0-9a-fA-F]]. *)
Definition hex_value (c : ascii) : option N :=
  let n := N_of_ascii c in
  if ((48 <=? n) && (n <=? 57))%N then Some (n - 48)%N
  else if ((97 <=? n) && (n <=? 102))%N then Some (n - 87)%N
  else if ((65 <=? n) && (n <=? 70))%N then Some (n - 55)%N
  else None.

Definition is_hex (c : ascii) : bool :=
  match hex_value c with Some _ => true | None => false end.

(** ['%0kx' % n]: the [k] low hexadecimal digits of [n], most significant
    first. *)
Fixpoint hex_digits (k : nat) (n : N) : list ascii :=
  match k with
  | O => []
  | S k' => (hex_digits k' (n / 16) ++ [hex_char (n mod 16)])%list
  end.

(** [int(h, 16)] on a text of hexadecimal digits. *)
Fixpoint int_of_hex (acc : N) (h : list ascii) : option N :=
  match h with
  | [] => Some acc
  | c :: r =>
      match hex_value c with
      | Some d => int_of_hex (16 * acc + d)%N r
      | None => None
      end
  end.

(** [str(u)]: the 32 hexadecimal digits in groups of 8, 4, 4, 4 and 12. *)
Definition str (u : uuid) : string :=
  let hex := hex_digits 32 u in
  let dash := ["-"%char] in
  string_of_list_ascii
    (take 8 hex ++ dash ++ take 4 (drop 8 hex) ++ dash
     ++ take 4 (drop 12 hex) ++ dash ++ take 4 (drop 16 hex) ++ dash
     ++ drop 20 hex)%list.

(** [uuid.UUID(hex)]: hyphens are removed, 32 characters must remain and are
    read in base 16; [None] stands for [ValueError]. The function is only
    applied to texts that match the converter's pattern below, on which
    the other normalisations of [uuid.UUID] and of [int] change nothing. *)
Definition UUID (hex : string) : option uuid :=
  let h := filter (fun c => c <> "-"%char) (list_ascii_of_string hex) in
  if Nat.eqb (length h) 32 then int_of_hex 0 h else None.

(** Consume exactly [n] hexadecimal digits. *)
Fixpoint hex_group (n : nat) (l : list ascii) : option (list ascii) :=
  match n with
  | O => Some l
  | S n' =>
      match l with
      | c :: r => if is_hex c then hex_group n' r else None
      | [] => None
      end
  end.

(** Groups of hexadecimal digits of the given sizes, separated by single
    hyphens, and nothing after the last group. *)
Fixpoint hex_groups (sizes : list nat) (l : list ascii) : bool :=
  match sizes with
  | [] => false
  | [n] =>
      match hex_group n l with
      | Some [] => true
      | _ => false
      end
  | n :: rest =>
      match hex_group n l with
      | Some ("-"%char :: r) => hex_groups rest r
      | _ => false
      end
  end.

(** The converter's pattern
    [[A-Fa-f0-9]{8}-[A-Fa-f0-9]{4}-[A-Fa-f0-9]{4}-[A-Fa-f0-9]{4}-[A-Fa-f0-9]{12}],
    matched against the whole path segment. *)
Definition regex_match (s : string) : bool :=
  hex_groups [8; 4; 4; 4; 12]%nat (list_ascii_of_string s).

(** A text with its letters [A-Z] in lower case. *)
Definition lower (s : string) : string :=
  string_of_list_ascii (map PyFloat.to_lower (list_ascii_of_string s)).

(** The [uuid] converter of the route [/request/<uuid:request_id>]: a
    segment that does not match the pattern does not match the route;
    otherwise the handler receives [uuid.UUID(segment)]. *)
Definition to_python (segment : string) : option uuid :=
  if regex_match segment then UUID segment else None.

End UUID.

(** ** [json.dumps] *)
Module Json.

Inductive value :=
| JString (s : string)
| JFloat (x : spec_float).

(** Four lowercase hexadecimal digits: ['{0:04x}'.format(n)]. *)
Definition hex4 (n : N) : string := string_of_list_ascii (UUID.hex_digits 4 n).

Definition quote : string := String (ascii_of_N 34) EmptyString.

(** One character of a string literal with [ensure_ascii] on: the quote, the
    backslash and everything outside [' '..'~'] are escaped. *)
Definition escape_char (c : ascii) : string :=
  let n := N_of_ascii c in
  if (n =? 34)%N then "\" ++ quote
  else if (n =? 92)%N then "\\"
  else if (n =? 8)%N then "\b"
  else if (n =? 12)%N then "\f"
  else if (n =? 10)%N then "\n"
  else if (n =? 13)%N then "\r"
  else if (n =? 9)%N then "\t"
  else if ((32 <=? n) && (n <=? 126))%N then String c EmptyString
  else "\u" ++ hex4 n.

Fixpoint escape (s : string) : string :=
  match s with
  | EmptyString => EmptyString
  | String c r => escape_char c ++ escape r
  end.

Section Dumps.
(** [float.__repr__], the shortest decimal text that reads back as the
    same float, is a parameter of the development. *)
Variable float_repr : spec_float -> string.

Definition dumps_value (v : value) : string :=
  match v with
  | JString s => quote ++ escape s ++ quote
  | JFloat S754_nan => "NaN"
  | JFloat (S754_infinity false) => "Infinity"
  | JFloat (S754_infinity true) => "-Infinity"
  | JFloat x => float_repr x
  end.

Definition dumps_member (kv : string * value) : string :=
  quote ++ escape (fst kv) ++ quote ++ ": " ++ dumps_value (snd kv).

Fixpoint join (sep : string) (l : list string) : string :=
  match l with
  | [] => EmptyString
  | [x] => x
  | x :: r => x ++ sep ++ join sep r
  end.

(** [json.dumps(d)] for a dict [d], given as its items in insertion
    order. *)
Definition dumps (d : list (string * value)) : string :=
  "{" ++ join ", " (map dumps_member d) ++ "}".
End Dumps.

End Json.

(** ** The application *)
Module Publisher.

(** *** Data *)

(** The item written to the orders table: keys [id], [customer], [amount]. *)
Record Item := {
  Item_id : string;
  Item_customer : string;
  Item_amount : spec_float
}.

Record MessageAttribute := {
  DataType : string;
  StringValue : string
}.

(** Keyword arguments of [sns_client.publish]. *)
Record Publication := {
  TargetArn : string;
  Message : string;
  MessageAttributes : list (string * MessageAttribute)
}.

(** Exceptions. [ValueError msg] stands for an instance of [ValueError] or
    of one of its subclasses whose [str] is [msg]; [BackendError] for an
    exception of any class not listed, such as the client errors of the
    backends. *)
Inductive exn :=
| ValueError (msg : string)
| TypeError (msg : string)
| BadRequestKeyError (key : string)
| BackendError (msg : string)
| UnboundLocalError (name : string).

(** Calls made on the two backends, each with its outcome: [None] when the
    call returned, [Some ex] when it raised [ex]. *)
Inductive call :=
| PutItem (item : Item) (raised : option exn)
| Publish (p : Publication) (raised : option exn)
| GetItem (key : string) (raised : option exn).

(** The backends: the content of the orders table and the calls made so
    far, oldest first. *)
Record world := {
  db_table : gmap string Item;
  calls : list call
}.

(** What the environment decides for one request: the identifier drawn by
    [uuid.uuid4()], for each backend call whether it returns or which
    exception it raises, and the sample values of the empty form. The
    exception of a backend call can be of any class, [ValueError] and its
    subclasses included. *)
Record env := {
  uuid4 : UUID.uuid;
  put_item_raises : option exn;
  publish_raises : option exn;
  get_item_raises : option exn;
  get_full_name : string;
  random_amount : spec_float
}.

Inductive method := GET | POST.

Record request := {
  request_method : method;
  request_form : gmap string string
}.

(** What the table built by the module, a boto3 [Table], raises when asked
    to write an item that holds a Python float: the item is refused while
    it is prepared, before anything is sent. Every item of [submit_order]
    holds one, its [amount]. *)
Definition float_type_error : exn :=
  TypeError "Float types are not supported. Use Decimal types instead.".

(** Keyword arguments of [render_template], per template. *)
Inductive context :=
| index_html (error : option string) (customer : string) (amount : spec_float)
| order_html (response : Item).

Inductive response :=
| render_template (ctx : context)
| redirect (location : string)
| body_status (body : string) (status : N)
| NotFound
| InternalServerError (e : exn).

(** *** Local variables, exceptions and backend state *)

(** The local variables of [submit_order] that a handler reads; [None] is a
    name not yet bound. *)
Record locals := {
  order_id : option string;
  customer : option string;
  amount : option spec_float
}.

Definition unbound : locals :=
  {| order_id := None; customer := None; amount := None |}.

Inductive outcome (A : Type) :=
| Return (a : A)
| Raise (e : exn).
Arguments Return {A} a.
Arguments Raise {A} e.

Definition M (A : Type) : Type := locals * world -> outcome A * (locals * world).

#[global] Instance M_ret : MRet M := fun A a s => (Return a, s).

#[global] Instance M_bind : MBind M := fun A B f m s =>
  match m s with
  | (Return a, s') => f a s'
  | (Raise e, s') => (Raise e, s')
  end.

Definition raise {A} (e : exn) : M A := fun s => (Raise e, s).

(** [try: body except ...: handler]; the handler runs in the state the body
    left, and what it raises is not caught again. *)
Definition try_except {A} (body : M A) (handler : exn -> M A) : M A :=
  fun s =>
    match body s with
    | (Return a, s') => (Return a, s')
    | (Raise e, s') => handler e s'
    end.

Definition set_order_id (v : string) : M unit := fun '(l, w) =>
  (Return tt, ({| order_id := Some v; customer := customer l; amount := amount l |}, w)).

Definition set_customer (v : string) : M unit := fun '(l, w) =>
  (Return tt, ({| order_id := order_id l; customer := Some v; amount := amount l |}, w)).

Definition set_amount (v : spec_float) : M unit := fun '(l, w) =>
  (Return tt, ({| order_id := order_id l; customer := customer l; amount := Some v |}, w)).

(** Reading a local name; an unbound one raises [UnboundLocalError]. *)
Definition load {A} (name : string) (field : locals -> option A) : M A :=
  fun '(l, w) =>
    match field l with
    | Some v => (Return v, (l, w))
    | None => (Raise (UnboundLocalError name), (l, w))
    end.

(** [request.form[key]] *)
Definition form_get (req : request) (key : string) : M string :=
  match request_form req !! key with
  | Some v => mret v
  | None => raise (BadRequestKeyError key)
  end.

(** [float(text)]; the message quotes the text the way [repr] does for text
    without quotes or backslashes. *)
Definition float (text : string) : M spec_float :=
  match PyFloat.float text with
  | Some x => mret x
  | None =>
      raise (ValueError ("could not convert string to float: '" ++ text ++ "'"))
  end.

Definition log_call (c : call) (w : world) : list call := calls w ++ [c].

(** [db_table.put_item(Item=item)]. The environment decides the outcome:
    the call returns, and the item replaces what is stored under its [id],
    or it raises and nothing is written. With the table of the module the
    outcome for an item of [submit_order] is [float_type_error]; a table
    that stores floats, such as a double used in a test, can return. *)
Definition put_item (e : env) (item : Item) : M unit := fun '(l, w) =>
  let c := PutItem item (put_item_raises e) in
  match put_item_raises e with
  | None =>
      (Return tt,
       (l, {| db_table := <[Item_id item := item]> (db_table w);
              calls := log_call c w |}))
  | Some ex =>
      (Raise ex, (l, {| db_table := db_table w; calls := log_call c w |}))
  end.

(** [sns_client.publish(...)]: returns, or raises the exception the
    environment decides. *)
Definition publish (e : env) (p : Publication) : M unit := fun '(l, w) =>
  let w' := {| db_table := db_table w;
               calls := log_call (Publish p (publish_raises e)) w |} in
  match publish_raises e with
  | None => (Return tt, (l, w'))
  | Some ex => (Raise ex, (l, w'))
  end.

(** [db_table.get_item(Key={'id': key})]; the result is the [Item] entry of
    the response, when there is one. *)
Definition get_item (e : env) (key : string) : M (option Item) := fun '(l, w) =>
  let w' := {| db_table := db_table w;
               calls := log_call (GetItem key (get_item_raises e)) w |} in
  match get_item_raises e with
  | None => (Return (db_table w !! key), (l, w'))
  | Some ex => (Raise ex, (l, w'))
  end.

(** [url_for('request_page', request_id=order_id)] *)
Definition url_for_request_page (request_id : string) : string :=
  "/request/" ++ request_id.

(** *** The handlers *)
Section Handlers.
(** [topic_arn] is resolved from the process environment at start-up;
    [float_repr] is [float.__repr__], used by [str(amount)] and by
    [json.dumps]. *)
Variable topic_arn : string.
Variable float_repr : spec_float -> string.

(** The body of the [try] statement of [submit_order]. *)
Definition submit_order_try (req : request) (e : env) : M response :=
  set_order_id (UUID.str (uuid4 e));;
  c ← form_get req "customer";
  set_customer c;;
  t ← form_get req "amount";
  a ← float t;
  set_amount a;;
  a ← load "amount" amount;
  (if PyFloat.lt a PyFloat.zero
   then raise (ValueError "Amount must be a positive number.")
   else mret tt);;
  i ← load "order_id" order_id;
  c ← load "customer" customer;
  a ← load "amount" amount;
  put_item e {| Item_id := i; Item_customer := c; Item_amount := a |};;
  c ← load "customer" customer;
  a ← load "amount" amount;
  a' ← load "amount" amount;
  publish e
    {| TargetArn := topic_arn;
       Message :=
         Json.dumps float_repr
           [("customer", Json.JString c); ("amount", Json.JFloat a)];
       MessageAttributes :=
         [("amount", {| DataType := "Number"; StringValue := float_repr a' |})]
    |};;
  i ← load "order_id" order_id;
  mret (redirect (url_for_request_page i)).

(** The two [except] clauses; both read [customer] and [amount]. *)
Definition submit_order_except (ex : exn) : M response :=
  match ex with
  | ValueError msg =>
      c ← load "customer" customer;
      a ← load "amount" amount;
      mret (render_template (index_html (Some msg) c a))
  | _ =>
      c ← load "customer" customer;
      a ← load "amount" amount;
      mret (render_template
              (index_html (Some "An error occurred. Please try again later.") c a))
  end.

Definition submit_order (req : request) (e : env) : M response :=
  match request_method req with
  | POST => try_except (submit_order_try req e) submit_order_except
  | GET =>
      mret (render_template
              (index_html None (get_full_name e) (random_amount e)))
  end.

Definition request_page (request_id : UUID.uuid) (e : env) : M response :=
  try_except
    (r ← get_item e (UUID.str request_id);
     match r with
     | None =>
         mret (body_status
                 ("Order with ID " ++ UUID.str request_id ++ " not found.") 404)
     | Some item => mret (render_template (order_html item))
     end)
    (fun _ =>
       mret (body_status "Failed to retrieve order. Please try again later." 500)).

(** A view function is called with fresh locals; an exception that leaves
    it becomes the server-error response. *)
Definition serve (view : M response) (w : world) : response * world :=
  match view (unbound, w) with
  | (Return r, (_, w')) => (r, w')
  | (Raise ex, (_, w')) => (InternalServerError ex, w')
  end.

(** [/] *)
Definition route_index (req : request) (e : env) (w : world)
  : response * world :=
  serve (submit_order req e) w.

(** [/request/<uuid:request_id>], given the path segment after
    [/request/]. *)
Definition route_request (segment : string) (e : env) (w : world)
  : response * world :=
  match UUID.to_python segment with
  | Some request_id => serve (request_page request_id e) w
  | None => (NotFound, w)
  end.
End Handlers.

End Publisher.

(** ** Vocabulary of the properties *)
Module Outcome.
Import Publisher.

(** The message of the second [except] clause of [submit_order]. *)
Definition retry_message : string :=
  "An error occurred. Please try again later.".

(** The message of the [ValueError] raised for a negative amount. *)
Definition negative_message : string := "Amount must be a positive number.".

(** The message an [except] clause of [submit_order] shows for an
    exception: its own text for a [ValueError], the retry message for any
    other class. *)
Definition error_text (ex : exn) : string :=
  match ex with
  | ValueError msg => msg
  | _ => retry_message
  end.

(** The form shown again with the retry message. *)
Definition retry_view (r : response) : Prop :=
  exists c a, r = render_template (index_html (Some retry_message) c a).

(** The text [str] gives for an identifier. *)
Definition canonical (s : string) : Prop :=
  exists u, UUID.wf u /\ s = UUID.str u.

(** The intake form shown again with an error message. *)
Definition error_view (r : response) : Prop :=
  exists msg c a, r = render_template (index_html (Some msg) c a).

(** A request that is turned down with the form shown again and that made no
    call on either backend: the table and the call log are what they were. *)
Definition rejected_untouched (w : world) (r : response * world) : Prop :=
  error_view (fst r) /\ snd r = w.

Definition is_publish (c : call) : bool :=
  match c with Publish _ _ => true | _ => false end.

Definition is_put_ok (c : call) : bool :=
  match c with PutItem _ None => true | _ => false end.

(** In a sequence of calls, every [publish] comes after a [put_item] that
    returned. *)
Fixpoint publish_after_put (stored : bool) (l : list call) : bool :=
  match l with
  | [] => true
  | c :: r =>
      if is_publish c then stored && publish_after_put stored r
      else publish_after_put (stored || is_put_ok c) r
  end.

(** The arguments of [sns_client.publish] for a customer and an amount. *)
Definition notification (topic_arn : string) (float_repr : spec_float -> string)
    (c : string) (a : spec_float) : Publication :=
  {| TargetArn := topic_arn;
     Message :=
       Json.dumps float_repr
         [("customer", Json.JString c); ("amount", Json.JFloat a)];
     MessageAttributes :=
       [("amount", {| DataType := "Number"; StringValue := float_repr a |})] |}.

(** The item [submit_order] writes for a customer and an amount. *)
Definition order_item (e : env) (c : string) (a : spec_float) : Item :=
  {| Item_id := UUID.str (uuid4 e); Item_customer := c; Item_amount := a |}.

(** A form with the two fields of a submission. *)
Definition post (c t : string) : request :=
  {| request_method := POST;
     request_form := <["customer" := c]> (<["amount" := t]> ∅) |}.

End Outcome.

(** ** Concrete requests and backends *)
Module Examples.
Import Publisher.

Definition arn : string := "arn:aws:sns:eu-west-1:123456789012:ordersTopic".

(** The text of a float in the concrete runs: [repr]. *)
Definition repr (x : spec_float) : string := PyRepr.repr x.

(** A version 4 identifier, [3f703b4e-6f2a-4c1d-9b7e-2a5d8c4f1e6b]. *)
Definition some_uuid : UUID.uuid := 84324103858972862669114438359408647787%N.

Definition some_id : string := "3f703b4e-6f2a-4c1d-9b7e-2a5d8c4f1e6b".

Definition empty_world : world := {| db_table := ∅; calls := [] |}.

(** Backends that answer every call. *)
Definition all_up : env :=
  {| uuid4 := some_uuid;
     put_item_raises := None;
     publish_raises := None;
     get_item_raises := None;
     get_full_name := "Jane Doe";
     random_amount := S754_finite false 5981343255101440 (-47) |}.

(** The table cannot be written. *)
Definition store_down : env :=
  {| uuid4 := some_uuid;
     put_item_raises := Some (BackendError "ProvisionedThroughputExceededException");
     publish_raises := None;
     get_item_raises := None;
     get_full_name := "Jane Doe";
     random_amount := S754_finite false 5981343255101440 (-47) |}.

(** The topic cannot be reached. *)
Definition topic_down : env :=
  {| uuid4 := some_uuid;
     put_item_raises := None;
     publish_raises := Some (BackendError "EndpointConnectionError");
     get_item_raises := None;
     get_full_name := "Jane Doe";
     random_amount := S754_finite false 5981343255101440 (-47) |}.

(** The table of the module: the write of an item with a float amount
    raises [float_type_error]. *)
Definition module_table : env :=
  {| uuid4 := some_uuid;
     put_item_raises := Some float_type_error;
     publish_raises := None;
     get_item_raises := None;
     get_full_name := "Jane Doe";
     random_amount := S754_finite false 5981343255101440 (-47) |}.

(** A table whose write fails with an instance of a subclass of
    [ValueError]. *)
Definition store_value_error : env :=
  {| uuid4 := some_uuid;
     put_item_raises :=
       Some (ValueError "'utf-8' codec can't encode characters: surrogates not allowed");
     publish_raises := None;
     get_item_raises := None;
     get_full_name := "Jane Doe";
     random_amount := S754_finite false 5981343255101440 (-47) |}.

(** The same identifier in upper case. *)
Definition some_id_upper : string := "3F703B4E-6F2A-4C1D-9B7E-2A5D8C4F1E6B".

End Examples.

(** ** Reading an escaped character back *)
Module JsonRead.

(** The character written as four hexadecimal digits. *)
Definition unhex4 (a b c d : ascii) : option ascii :=
  match UUID.hex_value a, UUID.hex_value b, UUID.hex_value c, UUID.hex_value d with
  | Some x, Some y, Some z, Some w =>
      let n := (((x * 16 + y) * 16 + z) * 16 + w)%N in
      if (n <? 256)%N then Some (ascii_of_N n) else None
  | _, _, _, _ => None
  end.

(** The first character of the inside of a string literal and the text
    after it; [None] at the closing quote and at a malformed escape. It is
    used to show that [Json.escape] can be undone. *)
Definition read_char (s : string) : option (ascii * string) :=
  match s with
  | EmptyString => None
  | String c r =>
      let n := N_of_ascii c in
      if (n =? 34)%N then None
      else if (n =? 92)%N then
        match r with
        | String e r' =>
            let k := N_of_ascii e in
            if (k =? 34)%N then Some (e, r')
            else if (k =? 92)%N then Some (e, r')
            else if (k =? 47)%N then Some (e, r')
            else if (k =? 98)%N then Some (ascii_of_N 8, r')
            else if (k =? 102)%N then Some (ascii_of_N 12, r')
            else if (k =? 110)%N then Some (ascii_of_N 10, r')
            else if (k =? 114)%N then Some (ascii_of_N 13, r')
            else if (k =? 116)%N then Some (ascii_of_N 9, r')
            else if (k =? 117)%N then
              match r' with
              | String h1 (String h2 (String h3 (String h4 r''))) =>
                  option_map (fun ch => (ch, r'')) (unhex4 h1 h2 h3 h4)
              | _ => None
              end
            else None
        | EmptyString => None
        end
      else Some (c, r)
  end.

(** The inside of a string literal read up to its closing quote: the text
    it stands for, and what follows the quote. *)
Fixpoint read_string_fuel (fuel : nat) (s : string) : option (string * string) :=
  match fuel with
  | O => None
  | S fuel' =>
      match s with
      | EmptyString => None
      | String c r =>
          if (N_of_ascii c =? 34)%N then Some (EmptyString, r)
          else
            match read_char s with
            | Some (ch, rest) =>
                match read_string_fuel fuel' rest with
                | Some (txt, tail) => Some (String ch txt, tail)
                | None => None
                end
            | None => None
            end
      end
  end.

Definition read_string (s : string) : option (string * string) :=
  read_string_fuel (String.length s) s.

(** The characters [' '] to ['~']. *)
Definition printable (c : ascii) : bool :=
  let n := N_of_ascii c in ((32 <=? n) && (n <=? 126))%N.

End JsonRead.


(** ** Requests served one after another *)
Module Server.
Import Publisher.

(** A request as the URL map dispatches it: to [/] with its method and
    form, or to [/request/<segment>]. *)
Inductive incoming :=
| to_index (req : request)
| to_request (segment : string).

Section Serve.
Variable topic_arn : string.
Variable float_repr : spec_float -> string.

Definition handle (i : incoming) (e : env) (w : world) : response * world :=
  match i with
  | to_index req => route_index topic_arn float_repr req e w
  | to_request segment => route_request segment e w
  end.

(** The backend state after a sequence of requests, each paired with what
    the environment decides for it. *)
Fixpoint run (l : list (incoming * env)) (w : world) : world :=
  match l with
  | [] => w
  | (i, e) :: rest => run rest (snd (handle i e w))
  end.
End Serve.

(** The identifier drawn for a request is below [2 ^ 128]. *)
Definition draws_identifier (x : incoming * env) : Prop := UUID.wf (uuid4 (snd x)).

(** A request to [/] that does not draw the identifier [u]. *)
Definition spares (u : UUID.uuid) (x : incoming * env) : Prop :=
  match fst x with
  | to_index _ => uuid4 (snd x) <> u
  | to_request _ => True
  end.

(** Every item of the table is stored under its own [id], and that [id] is
    the text of an identifier. *)
Definition table_ok (w : world) : Prop :=
  forall k item,
    db_table w !! k = Some item ->
    Item_id item = k /\ exists u, UUID.wf u /\ k = UUID.str u.

End Server.

(** ** More concrete requests *)
Module MoreExamples.
Import Publisher Server Examples.

(** Another version 4 identifier, [9a1c4c52-07d3-4b8e-8f21-5e6d7c8b9a10]. *)
Definition other_uuid : UUID.uuid := 204848043625177058521338648215165835792%N.

Definition other_id : string := "9a1c4c52-07d3-4b8e-8f21-5e6d7c8b9a10".

(** Backends that answer every call, for a request that draws
    [other_uuid]. *)
Definition all_up_other : env :=
  {| uuid4 := other_uuid;
     put_item_raises := None;
     publish_raises := None;
     get_item_raises := None;
     get_full_name := "John Doe";
     random_amount := S754_zero false |}.

(** A form without the [amount] field, and one without [customer]. *)
Definition post_customer_only (c : string) : request :=
  {| request_method := POST; request_form := <["customer" := c]> ∅ |}.

Definition post_amount_only (t : string) : request :=
  {| request_method := POST; request_form := <["amount" := t]> ∅ |}.

(** A second submission and a lookup of a malformed identifier. *)
Definition later_requests : list (incoming * env) :=
  [(to_index (Outcome.post "John Doe" "10"), all_up_other);
   (to_request "not-a-valid-id", all_up)].

End MoreExamples.

(** * Properties *)

(** ** The textual form of identifiers *)
Module UUIDFacts.
Import UUID.
Local Open Scope list_scope.

Lemma hex_value_hex_char d : (d < 16)%N -> hex_value (hex_char d) = Some d.
Proof.
  intros Hd. destruct d as [|p]; [reflexivity|].
  do 4 (destruct p as [p|p|]; try reflexivity); lia.
Qed.

Lemma is_hex_hex_char d : (d < 16)%N -> is_hex (hex_char d) = true.
Proof. intros Hd. unfold is_hex. now rewrite hex_value_hex_char. Qed.

Lemma is_hex_not_hyphen c : is_hex c = true -> c <> "-"%char.
Proof. intros H ->. discriminate H. Qed.

Lemma hex_digits_length k n : length (hex_digits k n) = k.
Proof.
  revert n. induction k as [|k IH]; intros n; simpl; [reflexivity|].
  rewrite length_app, IH. simpl. lia.
Qed.

Lemma hex_digits_is_hex k n : Forall (fun c => is_hex c = true) (hex_digits k n).
Proof.
  revert n. induction k as [|k IH]; intros n; simpl; [constructor|].
  apply Forall_app. split; [apply IH|].
  repeat constructor. apply is_hex_hex_char. apply N.mod_lt. lia.
Qed.

Lemma int_of_hex_app acc l1 l2 :
  int_of_hex acc (l1 ++ l2) =
  match int_of_hex acc l1 with
  | Some v => int_of_hex v l2
  | None => None
  end.
Proof.
  revert acc. induction l1 as [|c l1 IH]; intros acc; simpl; [reflexivity|].
  destruct (hex_value c); [apply IH | reflexivity].
Qed.

(** Reading back the [k] digits of [n] gives [n] modulo [16 ^ k]. *)
Lemma int_of_hex_digits k n acc :
  int_of_hex acc (hex_digits k n)
  = Some (acc * 16 ^ N.of_nat k + n mod 16 ^ N.of_nat k)%N.
Proof.
  revert n acc. induction k as [|k IH]; intros n acc.
  - simpl. rewrite N.mod_1_r. f_equal. lia.
  - cbn [hex_digits]. rewrite int_of_hex_app, IH. cbn [int_of_hex].
    rewrite hex_value_hex_char by (apply N.mod_lt; lia).
    f_equal. rewrite Nat2N.inj_succ, N.pow_succ_r'.
    rewrite (N.Div0.mod_mul_r n 16 (16 ^ N.of_nat k)). lia.
Qed.

Lemma filter_hex (g : list ascii) :
  Forall (fun c => is_hex c = true) g ->
  filter (fun c => c <> "-"%char) g = g.
Proof.
  induction 1 as [|c g Hc _ IH]; [reflexivity|].
  rewrite filter_cons_True by (now apply is_hex_not_hyphen). now rewrite IH.
Qed.

Lemma filter_hyphen (r : list ascii) :
  filter (fun c => c <> "-"%char) ("-"%char :: r)
  = filter (fun c => c <> "-"%char) r.
Proof. apply filter_cons_False. intros H. now apply H. Qed.

Lemma hex_group_app (g r : list ascii) :
  Forall (fun c => is_hex c = true) g ->
  hex_group (length g) (g ++ r) = Some r.
Proof.
  induction 1 as [|c g Hc _ IH]; [reflexivity|].
  simpl. now rewrite Hc.
Qed.

Lemma hex_groups_step n m rest (g r : list ascii) :
  Forall (fun c => is_hex c = true) g -> length g = n ->
  hex_groups (n :: m :: rest) (g ++ "-"%char :: r) = hex_groups (m :: rest) r.
Proof.
  intros Hg <-. cbn [hex_groups]. now rewrite hex_group_app.
Qed.

Lemma hex_groups_last n (g : list ascii) :
  Forall (fun c => is_hex c = true) g -> length g = n ->
  hex_groups [n] g = true.
Proof.
  intros Hg <-. cbn [hex_groups].
  rewrite <- (app_nil_r g) at 2. now rewrite hex_group_app.
Qed.

Lemma groups_rejoin (h : list ascii) :
  take 8 h ++ take 4 (drop 8 h) ++ take 4 (drop 12 h)
    ++ take 4 (drop 16 h) ++ drop 20 h = h.
Proof.
  replace (drop 20 h) with (drop 4 (drop 16 h)) by now rewrite drop_drop.
  rewrite take_drop.
  replace (drop 16 h) with (drop 4 (drop 12 h)) by now rewrite drop_drop.
  rewrite take_drop.
  replace (drop 12 h) with (drop 4 (drop 8 h)) by now rewrite drop_drop.
  now rewrite !take_drop.
Qed.

(** The text of an identifier matches the converter's pattern. *)
Lemma regex_match_str u : regex_match (str u) = true.
Proof.
  unfold regex_match, str. rewrite list_ascii_of_string_of_list_ascii.
  pose proof (hex_digits_is_hex 32 u) as Hh.
  pose proof (hex_digits_length 32 u) as Hl.
  set (h := hex_digits 32 u) in *. cbn [app].
  rewrite hex_groups_step
    by (try apply Forall_take; try apply Forall_drop;
        rewrite ?length_take, ?length_drop; auto; lia).
  rewrite hex_groups_step
    by (try apply Forall_take; try apply Forall_drop;
        rewrite ?length_take, ?length_drop; auto; lia).
  rewrite hex_groups_step
    by (try apply Forall_take; try apply Forall_drop;
        rewrite ?length_take, ?length_drop; auto; lia).
  rewrite hex_groups_step
    by (try apply Forall_take; try apply Forall_drop;
        rewrite ?length_take, ?length_drop; auto; lia).
  apply hex_groups_last; [now apply Forall_drop|].
  rewrite length_drop. lia.
Qed.

(** Parsing the text of an identifier gives the identifier back. *)
Lemma UUID_str u : wf u -> UUID (str u) = Some u.
Proof.
  intros Hu. unfold UUID, str. rewrite list_ascii_of_string_of_list_ascii.
  pose proof (hex_digits_is_hex 32 u) as Hh.
  set (h := hex_digits 32 u) in *. cbn [app].
  repeat first [rewrite filter_app | rewrite filter_hyphen].
  rewrite !filter_hex by (try apply Forall_take; try apply Forall_drop; auto).
  rewrite groups_rejoin. subst h. rewrite hex_digits_length. simpl Nat.eqb.
  cbv iota. rewrite int_of_hex_digits. f_equal.
  change (16 ^ N.of_nat 32)%N with (2 ^ 128)%N.
  rewrite N.mod_small by exact Hu. lia.
Qed.

Lemma to_python_str u : wf u -> to_python (str u) = Some u.
Proof.
  intros Hu. unfold to_python. rewrite regex_match_str. now apply UUID_str.
Qed.

Lemma hex_value_lower c d :
  hex_value c = Some d -> (d < 16)%N /\ hex_char d = PyFloat.to_lower c.
Proof.
  intros H.
  destruct c as [[] [] [] [] [] [] [] []]; vm_compute in H;
    try discriminate H; injection H as <-; split; reflexivity.
Qed.

(** Reading hexadecimal digits in either letter case and printing the value
    gives the digits back in lower case. *)
Lemma hex_digits_int_of_hex (h : list ascii) :
  Forall (fun c => is_hex c = true) h ->
  exists v, int_of_hex 0 h = Some v /\ (v < 16 ^ N.of_nat (length h))%N
            /\ hex_digits (length h) v = map PyFloat.to_lower h.
Proof.
  induction h as [|c h IH] using rev_ind; intros Hh.
  { exists 0%N. repeat split. }
  apply Forall_app in Hh as [Hh Hc]. destruct (IH Hh) as (v & Hv & Hlt & Hd).
  apply Forall_cons in Hc as [Hc _]. unfold is_hex in Hc.
  destruct (hex_value c) as [d|] eqn:Hcd; [|discriminate].
  destruct (hex_value_lower c d Hcd) as [Hd16 Hlow].
  exists (16 * v + d)%N. rewrite int_of_hex_app, Hv. cbn [int_of_hex].
  rewrite Hcd. split; [reflexivity|].
  rewrite length_app, Nat.add_1_r, Nat2N.inj_succ, N.pow_succ_r'.
  split; [lia|]. cbn [hex_digits]. rewrite map_app. cbn [map].
  replace ((16 * v + d) / 16)%N with v
    by (apply (N.div_unique _ 16 v d); lia).
  replace ((16 * v + d) mod 16)%N with d
    by (apply (N.mod_unique _ 16 v d); lia).
  now rewrite Hd, Hlow.
Qed.

Lemma hex_group_inv n (l r : list ascii) :
  hex_group n l = Some r ->
  exists g, l = g ++ r /\ length g = n /\ Forall (fun c => is_hex c = true) g.
Proof.
  revert l. induction n as [|n IH]; intros l H; simpl in H.
  { injection H as ->. exists []. repeat split. constructor. }
  destruct l as [|c l]; [discriminate|].
  destruct (is_hex c) eqn:Hc; [|discriminate].
  destruct (IH l H) as (g & -> & Hlen & Hg).
  exists (c :: g). repeat split; [simpl; lia | now constructor].
Qed.

Lemma hex_groups_step_inv n m rest (l : list ascii) :
  hex_groups (n :: m :: rest) l = true ->
  exists g r, l = g ++ "-"%char :: r /\ length g = n
              /\ Forall (fun c => is_hex c = true) g
              /\ hex_groups (m :: rest) r = true.
Proof.
  cbn [hex_groups]. destruct (hex_group n l) as [r|] eqn:Hg; [|discriminate].
  intros H. destruct (hex_group_inv n l r Hg) as (g & -> & Hlen & Hf).
  destruct r as [|c r]; [discriminate|].
  destruct (Ascii.eqb_spec c "-"%char) as [->|Hne].
  - now exists g, r.
  - exfalso. destruct c as [[] [] [] [] [] [] [] []];
      first [discriminate H | now apply Hne].
Qed.

Lemma hex_groups_last_inv n (l : list ascii) :
  hex_groups [n] l = true ->
  length l = n /\ Forall (fun c => is_hex c = true) l.
Proof.
  cbn [hex_groups]. destruct (hex_group n l) as [r|] eqn:Hg; [|discriminate].
  destruct r; [|discriminate]. intros _.
  destruct (hex_group_inv n l [] Hg) as (g & -> & Hlen & Hf).
  rewrite app_nil_r. now split.
Qed.

Lemma groups_split (l1 l2 l3 l4 l5 : list ascii) :
  length l1 = 8 -> length l2 = 4 -> length l3 = 4 -> length l4 = 4 ->
  let h := l1 ++ l2 ++ l3 ++ l4 ++ l5 in
  take 8 h = l1 /\ take 4 (drop 8 h) = l2 /\ take 4 (drop 12 h) = l3
  /\ take 4 (drop 16 h) = l4 /\ drop 20 h = l5.
Proof.
  intros H1 H2 H3 H4 h.
  assert (D8 : drop 8 h = l2 ++ l3 ++ l4 ++ l5)
    by (subst h; now rewrite drop_app_length').
  assert (D12 : drop 12 h = l3 ++ l4 ++ l5).
  { replace (drop 12 h) with (drop 4 (drop 8 h)) by now rewrite drop_drop.
    rewrite D8. now rewrite drop_app_length'. }
  assert (D16 : drop 16 h = l4 ++ l5).
  { replace (drop 16 h) with (drop 4 (drop 12 h)) by now rewrite drop_drop.
    rewrite D12. now rewrite drop_app_length'. }
  assert (D20 : drop 20 h = l5).
  { replace (drop 20 h) with (drop 4 (drop 16 h)) by now rewrite drop_drop.
    rewrite D16. now rewrite drop_app_length'. }
  rewrite D8, D12, D16, D20. subst h.
  repeat split; now rewrite take_app_length'.
Qed.

(** Every segment that matches the pattern denotes an identifier, whose
    text is the segment in lower case. *)
Lemma to_python_regex_match segment :
  regex_match segment = true ->
  exists u, to_python segment = Some u /\ wf u /\ str u = lower segment.
Proof.
  intros Hm. unfold to_python. rewrite Hm. unfold regex_match in Hm.
  unfold UUID, lower, str. set (l := list_ascii_of_string segment) in *.
  apply hex_groups_step_inv in Hm as (g1 & r1 & -> & L1 & F1 & Hm).
  apply hex_groups_step_inv in Hm as (g2 & r2 & -> & L2 & F2 & Hm).
  apply hex_groups_step_inv in Hm as (g3 & r3 & -> & L3 & F3 & Hm).
  apply hex_groups_step_inv in Hm as (g4 & g5 & -> & L4 & F4 & Hm).
  apply hex_groups_last_inv in Hm as [L5 F5].
  repeat first [rewrite filter_app | rewrite filter_hyphen].
  rewrite !filter_hex by assumption.
  assert (Hh : Forall (fun c => is_hex c = true) (g1 ++ g2 ++ g3 ++ g4 ++ g5))
    by (repeat (apply Forall_app; split); assumption).
  assert (Hl : length (g1 ++ g2 ++ g3 ++ g4 ++ g5) = 32)
    by (rewrite !length_app; lia).
  destruct (hex_digits_int_of_hex _ Hh) as (v & Hv & Hlt & Hd).
  rewrite Hl in Hlt, Hd. exists v. rewrite Hl, Hv. simpl Nat.eqb. cbv iota.
  split; [reflexivity|]. split; [exact Hlt|].
  f_equal. rewrite Hd, !map_app.
  destruct (groups_split (map PyFloat.to_lower g1) (map PyFloat.to_lower g2)
              (map PyFloat.to_lower g3) (map PyFloat.to_lower g4)
              (map PyFloat.to_lower g5))
    as (-> & -> & -> & -> & ->); rewrite ?length_map; try assumption.
  cbn [app]. repeat first [rewrite map_app | rewrite map_cons]. reflexivity.
Qed.

Example str_example :
  str 84324103858972862669114438359408647787%N
  = "3f703b4e-6f2a-4c1d-9b7e-2a5d8c4f1e6b".
Proof. reflexivity. Qed.

Example to_python_upper_case :
  to_python "3F703B4E-6F2A-4C1D-9B7E-2A5D8C4F1E6B"
  = Some 84324103858972862669114438359408647787%N.
Proof. reflexivity. Qed.

Example to_python_rejects :
  map to_python
    ["not-a-valid-id"; "3f703b4e6f2a4c1d9b7e2a5d8c4f1e6b";
     "3f703b4e-6f2a-4c1d-9b7e-2a5d8c4f1e6"; "3f703b4e-6f2a-4c1d-9b7e-2a5d8c4f1e6g";
     "{3f703b4e-6f2a-4c1d-9b7e-2a5d8c4f1e6b}"]
  = repeat None 5.
Proof. reflexivity. Qed.

(** The text of an identifier is in lower case. *)
Lemma lower_str u : wf u -> lower (str u) = str u.
Proof.
  intros Hu.
  destruct (to_python_regex_match (str u) (regex_match_str u))
    as (v & Hv & _ & Hs).
  rewrite to_python_str in Hv by exact Hu. injection Hv as <-. now symmetry.
Qed.

Lemma to_python_None segment :
  regex_match segment = false -> to_python segment = None.
Proof. intros H. unfold to_python. now rewrite H. Qed.

End UUIDFacts.

(** ** Comparisons of floats *)
Module PyFloatFacts.
Import PyFloat.

(** A float that is [>= 0] is not [< 0]. *)
Lemma ge_zero_not_lt a : ge a zero = true -> lt a zero = false.
Proof.
  unfold ge, lt, zero, SFleb, SFltb.
  destruct a as [s|s| |s m x]; try destruct s; simpl; congruence.
Qed.

(** [float] on sample texts. *)
Example float_decimal :
  float "42.50" = Some (S754_finite false 5981343255101440 (-47)).
Proof. reflexivity. Qed.

Example float_tenth : float "0.1" = Some (S754_finite false 7205759403792794 (-56)).
Proof. reflexivity. Qed.

Example float_spaces_and_sign :
  float "  -5 " = Some (S754_finite true 5629499534213120 (-50)).
Proof. reflexivity. Qed.

Example float_grouping_and_exponent :
  float "1_000.5e-1" = float "100.05".
Proof. reflexivity. Qed.

Example float_exponent :
  float "12.5E3" = float "12500" /\ float "1e-1" = float "0.1".
Proof. split; reflexivity. Qed.

Example float_rounding :
  float "1e23" = Some (S754_finite false 5960464477539062 24) /\
  float "9007199254740993" = float "9007199254740992" /\
  float "2.4703282292062327e-324" = Some (S754_zero false) /\
  float "2.4703282292062328e-324" = Some (S754_finite false 1 (-1074)).
Proof. repeat split; reflexivity. Qed.

Example float_negative_zero : float "-0" = Some (S754_zero true).
Proof. reflexivity. Qed.

Example float_overflow : float "1e400" = Some (S754_infinity false).
Proof. reflexivity. Qed.

Example float_infinity : float "-Infinity" = Some (S754_infinity true).
Proof. reflexivity. Qed.

Example float_nan : float "NaN" = Some S754_nan.
Proof. reflexivity. Qed.

Example float_rejects :
  map float ["abc"; ""; "."; "1e"; "1__0"; "_1"; "1_"; "0x10"; "- 1"; "1 0";
             "infin"; "12abc"]
  = repeat None 12.
Proof. reflexivity. Qed.

(** [repr] on sample floats, and the texts read back. *)
Example repr_samples :
  map PyRepr.repr
    [S754_finite false 5981343255101440 (-47);
     S754_finite false 7205759403792794 (-56);
     S754_finite true 5629499534213120 (-50);
     S754_finite false 7040392854975283 (-46);
     S754_finite false 5960464477539062 24;
     S754_finite false 5404319552844596 (-54);
     S754_finite false 5000000000000000 1;
     S754_finite false 8000000000000000 (-3);
     S754_finite false 5902958103587057 (-69);
     S754_finite false 7378697629483821 (-66);
     S754_zero true; S754_nan; S754_infinity true]
  = ["42.5"; "0.1"; "-5.0"; "100.05"; "1e+23"; "0.30000000000000004";
     "1e+16"; "1000000000000000.0"; "1e-05"; "0.0001"; "-0.0"; "nan";
     "-inf"]%string.
Proof. vm_compute. reflexivity. Qed.

Example repr_read_back :
  map (fun x => float (PyRepr.repr x))
    [S754_finite false 5981343255101440 (-47);
     S754_finite false 5404319552844596 (-54);
     S754_finite false 5960464477539062 24;
     S754_finite false 1 (-1074)]
  = map Some
      [S754_finite false 5981343255101440 (-47);
       S754_finite false 5404319552844596 (-54);
       S754_finite false 5960464477539062 24;
       S754_finite false 1 (-1074)].
Proof. vm_compute. reflexivity. Qed.

(** The separators 28 to 31 are not blanks for [float]. *)
Example float_separator_not_stripped :
  float (String (ascii_of_N 28) "10") = None
  /\ float ("-5.0" ++ String (ascii_of_N 31) EmptyString) = None
  /\ float (String (ascii_of_N 160) "10" ++ String (ascii_of_N 133) EmptyString)
     = float "10".
Proof. repeat split; reflexivity. Qed.

(** [-0.0 < 0] is false: negative zero passes the check of [submit_order]. *)
Example negative_zero_not_lt : lt (S754_zero true) zero = false.
Proof. reflexivity. Qed.

End PyFloatFacts.

(** ** The intake and lookup endpoints *)
Section Properties.
Import Publisher Outcome.
Variable topic_arn : string.
Variable float_repr : spec_float -> string.

Local Abbreviation route_index := (Publisher.route_index topic_arn float_repr).
Local Abbreviation notification := (Outcome.notification topic_arn float_repr).

Ltac unfold_monad :=
  unfold Publisher.route_index, route_request, serve, submit_order,
    request_page, try_except, submit_order_try, submit_order_except,
    form_get, float, set_order_id, set_customer, set_amount, load,
    put_item, publish, get_item, raise, log_call, mbind, M_bind, mret, M_ret.

(** What a POST with both fields present does, case by case. *)
Lemma route_index_post req e w c t :
  request_method req = POST ->
  request_form req !! "customer" = Some c ->
  request_form req !! "amount" = Some t ->
  route_index req e w =
  match PyFloat.float t with
  | None => (InternalServerError (UnboundLocalError "amount"), w)
  | Some a =>
      if PyFloat.lt a PyFloat.zero
      then (render_template (index_html (Some negative_message) c a), w)
      else
        match put_item_raises e with
        | Some ex =>
            (render_template (index_html (Some (error_text ex)) c a),
             {| db_table := db_table w;
                calls := calls w ++ [PutItem (order_item e c a) (Some ex)] |})
        | None =>
            let w' :=
              {| db_table :=
                   <[UUID.str (uuid4 e) := order_item e c a]> (db_table w);
                 calls := (calls w ++ [PutItem (order_item e c a) None])
                            ++ [Publish (notification c a) (publish_raises e)]
              |} in
            match publish_raises e with
            | Some ex =>
                (render_template (index_html (Some (error_text ex)) c a), w')
            | None =>
                (redirect (url_for_request_page (UUID.str (uuid4 e))), w')
            end
        end
  end.
Proof.
  intros Hm Hc Ht. unfold_monad. rewrite Hm. simpl. rewrite Hc. simpl.
  rewrite Ht. simpl.
  destruct (PyFloat.float t) as [a|]; simpl; [|reflexivity].
  destruct (PyFloat.lt a PyFloat.zero); simpl; [reflexivity|].
  destruct (put_item_raises e) as [[]|]; simpl; try reflexivity.
  destruct (publish_raises e) as [[]|]; reflexivity.
Qed.

(** A POST without a [customer] field, or without an [amount] field, ends
    in the failure of the [except] clause; no backend is called. *)
Lemma route_index_post_missing req e w :
  request_method req = POST ->
  request_form req !! "customer" = None
  \/ request_form req !! "amount" = None ->
  exists name, route_index req e w = (InternalServerError (UnboundLocalError name), w).
Proof.
  intros Hm H. unfold_monad. rewrite Hm. simpl.
  destruct (request_form req !! "customer") as [c|] eqn:Hc; simpl.
  - destruct H as [H|H]; [discriminate|]. rewrite H. simpl. now exists "amount".
  - now exists "customer".
Qed.

(** The empty form calls no backend. *)
Lemma route_index_get req e w :
  request_method req = GET ->
  route_index req e w =
  (render_template (index_html None (get_full_name e) (random_amount e)), w).
Proof. intros Hm. unfold_monad. now rewrite Hm. Qed.

(** Lookup of an identifier the table holds, and of one it does not. *)
Lemma route_request_found segment u e w item :
  UUID.to_python segment = Some u ->
  get_item_raises e = None ->
  db_table w !! UUID.str u = Some item ->
  fst (route_request segment e w) = render_template (order_html item).
Proof.
  intros Hu He Hi. unfold_monad. rewrite Hu. simpl. rewrite He, Hi. reflexivity.
Qed.

Lemma route_request_absent segment u e w :
  UUID.to_python segment = Some u ->
  get_item_raises e = None ->
  db_table w !! UUID.str u = None ->
  fst (route_request segment e w)
  = body_status ("Order with ID " ++ UUID.str u ++ " not found.") 404.
Proof.
  intros Hu He Hi. unfold_monad. rewrite Hu. simpl. rewrite He, Hi. reflexivity.
Qed.

(** The calls one request to [/] adds to the log: none, a failed write, or
    a write that returned followed by one publish. *)
Lemma route_index_new_calls req e w :
  exists new : list call,
    calls (snd (route_index req e w)) = (calls w ++ new)%list /\
    (new = []
     \/ (exists item ex,
           new = [PutItem item (Some ex)] /\
           fst (route_index req e w)
           = render_template
               (index_html (Some (error_text ex)) (Item_customer item)
                  (Item_amount item)))
     \/ (exists item p r, new = [PutItem item None; Publish p r])).
Proof.
  destruct (request_method req) eqn:Hm.
  { exists []. rewrite route_index_get by done. simpl.
    rewrite app_nil_r. auto. }
  destruct (request_form req !! "customer") as [c|] eqn:Hc; cycle 1.
  { destruct (route_index_post_missing req e w Hm) as [n ->]; [auto|].
    exists []. simpl. rewrite app_nil_r. auto. }
  destruct (request_form req !! "amount") as [t|] eqn:Ht; cycle 1.
  { destruct (route_index_post_missing req e w Hm) as [n ->]; [auto|].
    exists []. simpl. rewrite app_nil_r. auto. }
  rewrite (route_index_post req e w c t Hm Hc Ht).
  destruct (PyFloat.float t) as [a|];
    [|exists []; simpl; rewrite app_nil_r; auto].
  destruct (PyFloat.lt a PyFloat.zero);
    [exists []; simpl; rewrite app_nil_r; auto|].
  destruct (put_item_raises e) as [ex|].
  { exists [PutItem (order_item e c a) (Some ex)]. simpl. split; [done|].
    right. left. by exists (order_item e c a), ex. }
  exists [PutItem (order_item e c a) None;
          Publish (notification c a) (publish_raises e)].
  split.
  - destruct (publish_raises e); simpl; by rewrite <- app_assoc.
  - right. right. by eexists _, _, _.
Qed.

(** *** Claims *)

(** C1. A submission with a non-empty customer and an amount that parses to
    a float [>= 0], for which the table write and the publish both return,
    is answered with a redirect to the lookup page of the generated
    identifier, and looking that identifier up right away shows the record
    with the submitted customer and the parsed amount. *)
Theorem submit_then_lookup req e e' w c t a :
  request_method req = POST ->
  request_form req !! "customer" = Some c ->
  c <> EmptyString ->
  request_form req !! "amount" = Some t ->
  PyFloat.float t = Some a ->
  PyFloat.ge a PyFloat.zero = true ->
  UUID.wf (uuid4 e) ->
  put_item_raises e = None ->
  publish_raises e = None ->
  get_item_raises e' = None ->
  exists w',
    route_index req e w
    = (redirect (url_for_request_page (UUID.str (uuid4 e))), w') /\
    fst (route_request (UUID.str (uuid4 e)) e' w')
    = render_template
        (order_html
           {| Item_id := UUID.str (uuid4 e);
              Item_customer := c;
              Item_amount := a |}).
Proof.
  intros Hm Hc _ Ht Ha Hge Hu Hput Hpub Hget.
  rewrite (route_index_post req e w c t Hm Hc Ht), Ha.
  rewrite (PyFloatFacts.ge_zero_not_lt a Hge), Hput, Hpub.
  eexists. split; [reflexivity|].
  apply (route_request_found _ (uuid4 e)); [now apply UUIDFacts.to_python_str|done|].
  simpl. apply lookup_insert_eq.
Qed.

(** C2, as amended. An empty customer is handled like any other text. No
    backend is called when the amount does not parse or parses to a float
    [< 0]; otherwise the table write is attempted with the empty customer,
    and when it returns the table holds the order with the empty customer. *)
Theorem empty_customer_is_accepted req e w t :
  request_method req = POST ->
  request_form req !! "customer" = Some EmptyString ->
  request_form req !! "amount" = Some t ->
  match PyFloat.float t with
  | None => snd (route_index req e w) = w
  | Some a =>
      if PyFloat.lt a PyFloat.zero
      then rejected_untouched w (route_index req e w)
      else
        exists rest : list call,
          calls (snd (route_index req e w))
          = (calls w
             ++ PutItem {| Item_id := UUID.str (uuid4 e);
                           Item_customer := EmptyString;
                           Item_amount := a |} (put_item_raises e) :: rest)%list
          /\ (put_item_raises e = None ->
              db_table (snd (route_index req e w)) !! UUID.str (uuid4 e)
              = Some {| Item_id := UUID.str (uuid4 e);
                        Item_customer := EmptyString;
                        Item_amount := a |})
  end.
Proof.
  intros Hm Hc Ht. rewrite (route_index_post req e w _ t Hm Hc Ht).
  destruct (PyFloat.float t) as [a|]; [|reflexivity].
  destruct (PyFloat.lt a PyFloat.zero).
  { split; [|reflexivity]. by eexists _, _, _. }
  destruct (put_item_raises e) as [ex|].
  { exists []. split; [reflexivity|discriminate]. }
  exists [Publish (notification EmptyString a) (publish_raises e)]. split.
  - destruct (publish_raises e); simpl; by rewrite <- app_assoc.
  - intros _. destruct (publish_raises e); simpl; apply lookup_insert_eq.
Qed.


(** C4, as amended. In the calls any request to [/] makes, a publish only
    ever follows a table write that returned. When the table write raised,
    no publish was made and the answer is the form with the submitted
    values and an error text: the retry message, unless the exception is a
    [ValueError], whose own text is shown. *)
Theorem publish_only_after_store_write req e w :
  exists new : list call,
    calls (snd (route_index req e w)) = (calls w ++ new)%list /\
    publish_after_put false new = true /\
    (forall item ex,
       In (PutItem item (Some ex)) new ->
       existsb is_publish new = false /\
       fst (route_index req e w)
       = render_template
           (index_html (Some (error_text ex)) (Item_customer item)
              (Item_amount item))).
Proof.
  destruct (route_index_new_calls req e w) as (new & Hnew & Hcases).
  exists new. split; [exact Hnew|].
  destruct Hcases as [->|[(item & ex & -> & Hr)|(item & p & r & ->)]].
  - split; [reflexivity|]. intros item ex [].
  - split; [reflexivity|]. intros item' ex' [[= <- <-]|[]]. now split.
  - split; [reflexivity|]. intros item' ex' [H|[H|[]]]; discriminate H.
Qed.

(** C5. When the table write returns and the publish raises, the order
    stays in the table: the answer is the form with an error text (the
    retry message, or the exception's own text for a [ValueError]), and a
    lookup of the generated identifier shows the record. *)
Theorem publish_failure_keeps_order req e e' w c t a ex :
  request_method req = POST ->
  request_form req !! "customer" = Some c ->
  request_form req !! "amount" = Some t ->
  PyFloat.float t = Some a ->
  PyFloat.lt a PyFloat.zero = false ->
  UUID.wf (uuid4 e) ->
  put_item_raises e = None ->
  publish_raises e = Some ex ->
  get_item_raises e' = None ->
  exists w',
    route_index req e w
    = (render_template (index_html (Some (error_text ex)) c a), w') /\
    fst (route_request (UUID.str (uuid4 e)) e' w')
    = render_template
        (order_html
           {| Item_id := UUID.str (uuid4 e);
              Item_customer := c;
              Item_amount := a |}).
Proof.
  intros Hm Hc Ht Ha Hlt Hu Hput Hpub Hget.
  rewrite (route_index_post req e w c t Hm Hc Ht), Ha, Hlt, Hput, Hpub.
  eexists. split; [reflexivity|].
  apply (route_request_found _ (uuid4 e)); [now apply UUIDFacts.to_python_str|done|].
  simpl. apply lookup_insert_eq.
Qed.

(** C6, as amended. A path segment that is not made of hexadecimal
    digits, in either letter case, in groups of 8, 4, 4, 4 and 12 separated
    by hyphens matches no route: the answer is the router's not-found
    response, [request_page] does not run and the table is not read. Every
    segment of that form is accepted, and the table is read once, under
    the segment in lower case. *)
Theorem malformed_id_not_routed segment e w :
  (UUID.regex_match segment = false ->
   route_request segment e w = (NotFound, w)) /\
  (UUID.regex_match segment = true ->
   calls (snd (route_request segment e w))
   = (calls w ++ [GetItem (UUID.lower segment) (get_item_raises e)])%list).
Proof.
  split; intros Hm.
  - unfold route_request. now rewrite (UUIDFacts.to_python_None _ Hm).
  - destruct (UUIDFacts.to_python_regex_match segment Hm) as (u & Hu & _ & Hs).
    rewrite <- Hs. unfold_monad. rewrite Hu. simpl.
    destruct (get_item_raises e); [reflexivity|].
    now destruct (db_table w !! UUID.str u).
Qed.

(** C7. For a path segment of the accepted form, denoting an identifier
    the table does not hold, the answer has status 404 and its text names
    the identifier: the segment as [str] prints it, in lower case. *)
Theorem unknown_id_not_found segment e w :
  UUID.regex_match segment = true ->
  get_item_raises e = None ->
  db_table w !! UUID.lower segment = None ->
  fst (route_request segment e w)
  = body_status ("Order with ID " ++ UUID.lower segment ++ " not found.") 404.
Proof.
  intros Hm He Hw.
  destruct (UUIDFacts.to_python_regex_match segment Hm) as (u & Hu & _ & Hs).
  rewrite <- Hs in *. now apply route_request_absent.
Qed.

(** C8, on the code. When the amount field does not parse, [float] raises
    before [amount] is bound; the [except ValueError] clause then reads
    [amount] and fails, so the form is not shown again: the request ends in
    a server error. *)
Theorem unparsable_amount_crashes req e w c t :
  request_method req = POST ->
  request_form req !! "customer" = Some c ->
  request_form req !! "amount" = Some t ->
  PyFloat.float t = None ->
  route_index req e w = (InternalServerError (UnboundLocalError "amount"), w).
Proof.
  intros Hm Hc Ht Ha. now rewrite (route_index_post req e w c t Hm Hc Ht), Ha.
Qed.

(** C10, as amended. The amount field [nan] parses to NaN, which is
    neither [< 0] nor [>= 0]; the check lets it through and the table write
    is attempted with the amount NaN. When the write returns the table
    holds an order whose amount is NaN. With the table of the module, which
    refuses a float, nothing is stored and the answer is the form with the
    retry message. *)
Theorem nan_amount_passes_the_check :
  PyFloat.float "nan" = Some S754_nan /\
  PyFloat.lt S754_nan PyFloat.zero = false /\
  PyFloat.ge S754_nan PyFloat.zero = false /\
  forall req e w c,
    request_method req = POST ->
    request_form req !! "customer" = Some c ->
    request_form req !! "amount" = Some "nan" ->
    let item := {| Item_id := UUID.str (uuid4 e);
                   Item_customer := c;
                   Item_amount := S754_nan |} in
    (exists rest : list call,
       calls (snd (route_index req e w))
       = (calls w ++ PutItem item (put_item_raises e) :: rest)%list) /\
    (put_item_raises e = None ->
     db_table (snd (route_index req e w)) !! UUID.str (uuid4 e) = Some item) /\
    (put_item_raises e = Some float_type_error ->
     route_index req e w
     = (render_template (index_html (Some retry_message) c S754_nan),
        {| db_table := db_table w;
           calls := calls w ++ [PutItem item (Some float_type_error)] |})).
Proof.
  split; [reflexivity|]. split; [reflexivity|]. split; [reflexivity|].
  intros req e w c Hm Hc Ht item.
  rewrite (route_index_post req e w c _ Hm Hc Ht).
  change (PyFloat.float "nan") with (Some S754_nan). cbv iota beta.
  change (PyFloat.lt S754_nan PyFloat.zero) with false. cbv iota.
  destruct (put_item_raises e) as [ex|].
  - split; [now exists []|]. split; [discriminate|]. now intros [= ->].
  - split; [|split; [|discriminate]].
    + exists [Publish (notification c S754_nan) (publish_raises e)].
      destruct (publish_raises e); simpl; by rewrite <- app_assoc.
    + intros _. destruct (publish_raises e); simpl; apply lookup_insert_eq.
Qed.

End Properties.

(** ** The properties on concrete requests *)
Module Instances.
Import Publisher Outcome Examples.

Local Abbreviation forty_two_and_a_half :=
  (S754_finite false 5981343255101440 (-47)).
Local Abbreviation ten := (S754_finite false 5629499534213120 (-49)).
Local Abbreviation minus_five := (S754_finite true 5629499534213120 (-50)).

Ltac evaluate := vm_compute; reflexivity.

(** [submit("Jane Doe", 42.50)] and the lookup of its identifier. *)
Lemma submit_then_lookup_witness :
  exists w',
    route_index arn repr (post "Jane Doe" "42.50") all_up empty_world
    = (redirect "/request/3f703b4e-6f2a-4c1d-9b7e-2a5d8c4f1e6b", w') /\
    fst (route_request some_id all_up w')
    = render_template
        (order_html
           {| Item_id := some_id;
              Item_customer := "Jane Doe";
              Item_amount := forty_two_and_a_half |}).
Proof.
  apply (submit_then_lookup arn repr (post "Jane Doe" "42.50") all_up all_up
           empty_world "Jane Doe" "42.50" forty_two_and_a_half);
    try evaluate.
  intros H. discriminate H.
Defined.

(** Against C2 as first stated: [submit("", 10.0)] is not turned down for
    its customer. With the table of the module the write is attempted with
    the empty customer, and the answer is the form with the retry message,
    not a validation message. *)
Lemma empty_customer_counterexample :
  request_form (post EmptyString "10") !! "customer" = Some EmptyString /\
  ~ rejected_untouched empty_world
      (route_index arn repr (post EmptyString "10") module_table empty_world) /\
  calls (snd (route_index arn repr (post EmptyString "10") module_table
                empty_world))
  = [PutItem {| Item_id := some_id;
                Item_customer := EmptyString;
                Item_amount := ten |} (Some float_type_error)] /\
  fst (route_index arn repr (post EmptyString "10") module_table empty_world)
  = render_template (index_html (Some retry_message) EmptyString ten).
Proof.
  split; [evaluate|]. split; [|split; evaluate].
  intros [_ H]. apply (f_equal calls) in H. vm_compute in H. discriminate H.
Defined.

Lemma empty_customer_is_accepted_witness :
  exists rest : list call,
    calls (snd (route_index arn repr (post EmptyString "10") all_up empty_world))
    = (PutItem {| Item_id := some_id;
                  Item_customer := EmptyString;
                  Item_amount := ten |} None :: rest)%list
    /\ (put_item_raises all_up = None ->
        db_table
          (snd (route_index arn repr (post EmptyString "10") all_up empty_world))
          !! some_id
        = Some {| Item_id := some_id;
                  Item_customer := EmptyString;
                  Item_amount := ten |}).
Proof.
  exact (empty_customer_is_accepted arn repr (post EmptyString "10") all_up
           empty_world "10" eq_refl eq_refl eq_refl).
Defined.


(** The table write fails: no publish, and the retry message. *)
Lemma publish_only_after_store_write_witness :
  exists new : list call,
    calls (snd (route_index arn repr (post "Jane Doe" "42.50") store_down
                  empty_world))
    = (calls empty_world ++ new)%list /\
    publish_after_put false new = true /\
    (forall item ex,
       In (PutItem item (Some ex)) new ->
       existsb is_publish new = false /\
       fst (route_index arn repr (post "Jane Doe" "42.50") store_down
              empty_world)
       = render_template
           (index_html (Some (error_text ex)) (Item_customer item)
              (Item_amount item))).
Proof.
  exact (publish_only_after_store_write arn repr (post "Jane Doe" "42.50")
           store_down empty_world).
Defined.

(** Against C4 as first stated: a table write that fails with a
    [ValueError] is not answered with the retry message; the first
    [except] clause shows the exception's own text. *)
Lemma store_value_error_counterexample :
  calls (snd (route_index arn repr (post "Jane Doe" "42.50") store_value_error
                empty_world))
  = [PutItem {| Item_id := some_id;
                Item_customer := "Jane Doe";
                Item_amount := forty_two_and_a_half |}
       (put_item_raises store_value_error)] /\
  fst (route_index arn repr (post "Jane Doe" "42.50") store_value_error
         empty_world)
  = render_template
      (index_html
         (Some "'utf-8' codec can't encode characters: surrogates not allowed")
         "Jane Doe" forty_two_and_a_half) /\
  ~ retry_view
      (fst (route_index arn repr (post "Jane Doe" "42.50") store_value_error
              empty_world)).
Proof.
  split; [evaluate|]. split; [evaluate|].
  intros (c & a & H). vm_compute in H. discriminate H.
Defined.

(** The publish fails: the order can still be looked up. *)
Lemma publish_failure_keeps_order_witness :
  exists w',
    route_index arn repr (post "Jane Doe" "42.50") topic_down empty_world
    = (render_template
         (index_html (Some retry_message) "Jane Doe" forty_two_and_a_half),
       w') /\
    fst (route_request some_id all_up w')
    = render_template
        (order_html
           {| Item_id := some_id;
              Item_customer := "Jane Doe";
              Item_amount := forty_two_and_a_half |}).
Proof.
  apply (publish_failure_keeps_order arn repr (post "Jane Doe" "42.50")
           topic_down all_up empty_world "Jane Doe" "42.50"
           forty_two_and_a_half (BackendError "EndpointConnectionError"));
    evaluate.
Defined.

(** [lookup("not-a-valid-id")] reaches no route and no backend; the
    identifier in upper case is looked up under its lower-case form. *)
Lemma malformed_id_not_routed_witness :
  route_request "not-a-valid-id" all_up empty_world = (NotFound, empty_world) /\
  calls (snd (route_request some_id_upper all_up empty_world))
  = [GetItem some_id None].
Proof.
  split.
  - apply (malformed_id_not_routed "not-a-valid-id" all_up empty_world).
    evaluate.
  - apply (malformed_id_not_routed some_id_upper all_up empty_world).
    evaluate.
Defined.

(** Against C6 as first stated: an identifier written in upper case is not
    the text [str] gives for any identifier, yet the lookup is not turned
    down and the table is read. *)
Lemma upper_case_id_counterexample :
  ~ canonical some_id_upper /\
  calls (snd (route_request some_id_upper all_up empty_world))
  = [GetItem some_id None] /\
  fst (route_request some_id_upper all_up empty_world)
  = body_status
      "Order with ID 3f703b4e-6f2a-4c1d-9b7e-2a5d8c4f1e6b not found." 404.
Proof.
  split; [|split; evaluate].
  intros (u & Hu & H).
  assert (E : UUID.lower some_id_upper = some_id_upper)
    by (rewrite H; now apply UUIDFacts.lower_str).
  vm_compute in E. discriminate E.
Defined.

(** [lookup("00000000-0000-0000-0000-000000000000")], never issued. *)
Lemma unknown_id_not_found_witness :
  fst (route_request "00000000-0000-0000-0000-000000000000" all_up empty_world)
  = body_status
      "Order with ID 00000000-0000-0000-0000-000000000000 not found." 404.
Proof.
  apply (unknown_id_not_found "00000000-0000-0000-0000-000000000000");
    evaluate.
Defined.

(** A POST with the amount field [abc]. *)
Lemma unparsable_amount_crashes_witness :
  route_index arn repr (post "Jane Doe" "abc") all_up empty_world
  = (InternalServerError (UnboundLocalError "amount"), empty_world).
Proof.
  apply (unparsable_amount_crashes arn repr (post "Jane Doe" "abc") all_up
           empty_world "Jane Doe" "abc"); evaluate.
Defined.

(** A POST with the amount field [nan]: the write is attempted with NaN;
    stored when the table accepts it. *)
Lemma nan_amount_passes_the_check_witness :
  db_table (snd (route_index arn repr (post "Jane Doe" "nan") all_up empty_world))
    !! some_id
  = Some {| Item_id := some_id;
            Item_customer := "Jane Doe";
            Item_amount := S754_nan |}.
Proof.
  destruct (nan_amount_passes_the_check arn repr) as (_ & _ & _ & H).
  apply (H (post "Jane Doe" "nan") all_up empty_world "Jane Doe"); evaluate.
Defined.

(** Against C10 as first stated: with the table of the module the order
    with the amount NaN is not persisted. The check passes, the write is
    attempted and refused, and the table stays empty. *)
Lemma nan_order_counterexample :
  PyFloat.float "nan" = Some S754_nan /\
  PyFloat.lt S754_nan PyFloat.zero = false /\
  calls (snd (route_index arn repr (post "Jane Doe" "nan") module_table
                empty_world))
  = [PutItem {| Item_id := some_id;
                Item_customer := "Jane Doe";
                Item_amount := S754_nan |} (Some float_type_error)] /\
  db_table (snd (route_index arn repr (post "Jane Doe" "nan") module_table
                   empty_world)) = ∅ /\
  fst (route_index arn repr (post "Jane Doe" "nan") module_table empty_world)
  = render_template (index_html (Some retry_message) "Jane Doe" S754_nan).
Proof. repeat split; evaluate. Defined.

End Instances.

(** * Further properties *)

(** ** Letter case of identifiers *)
Module UUIDCase.
Import UUID.
Local Open Scope list_scope.

Lemma is_hex_to_lower c : is_hex (PyFloat.to_lower c) = is_hex c.
Proof. destruct c as [[] [] [] [] [] [] [] []]; reflexivity. Qed.

Lemma to_lower_idem c : PyFloat.to_lower (PyFloat.to_lower c) = PyFloat.to_lower c.
Proof. destruct c as [[] [] [] [] [] [] [] []]; reflexivity. Qed.

Lemma hex_group_to_lower n (l : list ascii) :
  hex_group n (map PyFloat.to_lower l)
  = option_map (map PyFloat.to_lower) (hex_group n l).
Proof.
  revert l. induction n as [|n IH]; intros [|c l]; simpl; try reflexivity.
  rewrite is_hex_to_lower. destruct (is_hex c); [apply IH | reflexivity].
Qed.

Lemma hex_groups_to_lower sizes (l : list ascii) :
  hex_groups sizes (map PyFloat.to_lower l) = hex_groups sizes l.
Proof.
  revert l. induction sizes as [|n [|m rest] IH]; intros l; [reflexivity| |].
  - cbn [hex_groups]. rewrite hex_group_to_lower.
    destruct (hex_group n l) as [[|c r]|]; reflexivity.
  - cbn [hex_groups] in *. rewrite hex_group_to_lower.
    destruct (hex_group n l) as [[|c r]|]; try reflexivity.
    cbn [option_map map].
    destruct c as [[] [] [] [] [] [] [] []]; first [reflexivity | apply IH].
Qed.

Lemma regex_match_lower segment :
  regex_match (lower segment) = regex_match segment.
Proof.
  unfold regex_match, lower. rewrite list_ascii_of_string_of_list_ascii.
  apply hex_groups_to_lower.
Qed.

Lemma lower_idem s : lower (lower s) = lower s.
Proof.
  unfold lower. rewrite list_ascii_of_string_of_list_ascii, map_map.
  f_equal. apply map_ext. intros c. apply to_lower_idem.
Qed.

Lemma to_python_lower segment : to_python (lower segment) = to_python segment.
Proof.
  destruct (regex_match segment) eqn:Hm.
  - destruct (UUIDFacts.to_python_regex_match segment Hm) as (u & Hu & Hwf & Hs).
    rewrite Hu, <- Hs. now apply UUIDFacts.to_python_str.
  - rewrite (UUIDFacts.to_python_None segment Hm).
    apply UUIDFacts.to_python_None. now rewrite regex_match_lower.
Qed.

Lemma str_inj u v : wf u -> wf v -> str u = str v -> u = v.
Proof.
  intros Hu Hv H. apply (f_equal to_python) in H.
  rewrite !UUIDFacts.to_python_str in H by assumption. now injection H.
Qed.

End UUIDCase.

(** ** More on the intake and lookup endpoints *)
Section Endpoints.
Import Publisher Outcome.
Variable topic_arn : string.
Variable float_repr : spec_float -> string.

Local Abbreviation route_index := (Publisher.route_index topic_arn float_repr).
Local Abbreviation notification := (Outcome.notification topic_arn float_repr).
Local Abbreviation route_index_post :=
  (route_index_post topic_arn float_repr).

Ltac run_monad :=
  unfold Publisher.route_index, route_request, serve, submit_order,
    request_page, try_except, submit_order_try, submit_order_except,
    form_get, float, set_order_id, set_customer, set_amount, load,
    put_item, publish, get_item, raise, log_call, mbind, M_bind, mret, M_ret.

(** A POST without [customer] fails on that name; one with [customer] but
    without [amount] fails on [amount]. *)
Lemma route_index_no_customer req e w :
  request_method req = POST ->
  request_form req !! "customer" = None ->
  route_index req e w = (InternalServerError (UnboundLocalError "customer"), w).
Proof. intros Hm Hc. run_monad. rewrite Hm. simpl. now rewrite Hc. Qed.

Lemma route_index_no_amount req e w c :
  request_method req = POST ->
  request_form req !! "customer" = Some c ->
  request_form req !! "amount" = None ->
  route_index req e w = (InternalServerError (UnboundLocalError "amount"), w).
Proof.
  intros Hm Hc Ha. run_monad. rewrite Hm. simpl. rewrite Hc. simpl.
  now rewrite Ha.
Qed.

(** Case analysis on a request to [/]: the empty form, a missing field, or
    a POST with both fields. *)
Lemma request_cases req :
  request_method req = GET
  \/ (request_method req = POST /\ request_form req !! "customer" = None)
  \/ (exists c, request_method req = POST
                /\ request_form req !! "customer" = Some c
                /\ request_form req !! "amount" = None)
  \/ (exists c t, request_method req = POST
                  /\ request_form req !! "customer" = Some c
                  /\ request_form req !! "amount" = Some t).
Proof.
  destruct (request_method req); [now left|right].
  destruct (request_form req !! "customer") as [c|]; [right|now left].
  destruct (request_form req !! "amount") as [t|]; [right|left]; eauto.
Qed.

(** The table after a request to [/]: as before, or with the new order
    under the identifier drawn for the request. *)
Lemma route_index_table req e w :
  db_table (snd (route_index req e w)) = db_table w
  \/ exists c a,
       db_table (snd (route_index req e w))
       = <[UUID.str (uuid4 e) := order_item e c a]> (db_table w).
Proof.
  destruct (request_cases req)
    as [Hm|[[Hm Hc]|[(c & Hm & Hc & Ht)|(c & t & Hm & Hc & Ht)]]].
  - rewrite (route_index_get topic_arn float_repr) by done. now left.
  - rewrite route_index_no_customer by done. now left.
  - rewrite (route_index_no_amount req e w c) by done. now left.
  - rewrite (route_index_post req e w c t Hm Hc Ht).
    destruct (PyFloat.float t) as [a|]; [|now left].
    destruct (PyFloat.lt a PyFloat.zero); [now left|].
    destruct (put_item_raises e); [now left|].
    right. exists c, a. now destruct (publish_raises e).
Qed.

(** A submission that passes the checks and whose write returns leaves the
    table with the new order inserted, whatever the publish does. *)
Lemma route_index_stores req e w c t a :
  request_method req = POST ->
  request_form req !! "customer" = Some c ->
  request_form req !! "amount" = Some t ->
  PyFloat.float t = Some a ->
  PyFloat.lt a PyFloat.zero = false ->
  put_item_raises e = None ->
  db_table (snd (route_index req e w))
  = <[UUID.str (uuid4 e) := order_item e c a]> (db_table w).
Proof.
  intros Hm Hc Ht Ha Hlt Hput.
  rewrite (route_index_post req e w c t Hm Hc Ht), Ha, Hlt, Hput.
  now destruct (publish_raises e).
Qed.

(** *** The intake endpoint *)

(** What a redirect tells about the request and the backends. *)
Lemma redirect_inv req e w loc :
  fst (route_index req e w) = redirect loc ->
  exists c t a,
    request_method req = POST /\
    request_form req !! "customer" = Some c /\
    request_form req !! "amount" = Some t /\
    PyFloat.float t = Some a /\
    PyFloat.lt a PyFloat.zero = false /\
    put_item_raises e = None /\
    publish_raises e = None /\
    loc = url_for_request_page (UUID.str (uuid4 e)) /\
    db_table (snd (route_index req e w)) !! UUID.str (uuid4 e)
    = Some {| Item_id := UUID.str (uuid4 e);
              Item_customer := c;
              Item_amount := a |}.
Proof.
  intros H.
  destruct (request_cases req)
    as [Hm|[[Hm Hc]|[(c & Hm & Hc & Ht)|(c & t & Hm & Hc & Ht)]]].
  - rewrite (route_index_get topic_arn float_repr) in H by done. discriminate H.
  - rewrite route_index_no_customer in H by done. discriminate H.
  - rewrite (route_index_no_amount req e w c) in H by done. discriminate H.
  - exists c, t. rewrite (route_index_post req e w c t Hm Hc Ht) in H |- *.
    destruct (PyFloat.float t) as [a|] eqn:Ha; [|discriminate H].
    destruct (PyFloat.lt a PyFloat.zero) eqn:Hlt; [discriminate H|].
    destruct (put_item_raises e) eqn:Hput; [discriminate H|].
    destruct (publish_raises e) eqn:Hpub; [discriminate H|].
    simpl in H. injection H as <-. exists a.
    repeat split; try done. simpl. apply lookup_insert_eq.
Qed.

(** *** The intake endpoint *)

(** X1. A redirect is only ever the answer to a POST whose two fields are
    present, whose amount parses to a float that is not [< 0], and for
    which the write and the publish both returned; the order is then in the
    table under the identifier of the redirect. *)
Theorem redirect_means_stored_and_published req e w loc :
  fst (route_index req e w) = redirect loc ->
  exists c t a,
    request_method req = POST /\
    request_form req !! "customer" = Some c /\
    request_form req !! "amount" = Some t /\
    PyFloat.float t = Some a /\
    PyFloat.lt a PyFloat.zero = false /\
    put_item_raises e = None /\
    publish_raises e = None /\
    loc = url_for_request_page (UUID.str (uuid4 e)) /\
    db_table (snd (route_index req e w)) !! UUID.str (uuid4 e)
    = Some {| Item_id := UUID.str (uuid4 e);
              Item_customer := c;
              Item_amount := a |}.
Proof. apply redirect_inv. Qed.

(** X2. Following a redirect never misses: the path of the redirect is
    [/request/] followed by a segment the lookup route accepts, and the
    lookup of that segment shows the customer just submitted. *)
Theorem redirect_target_shows_order req e e' w loc :
  UUID.wf (uuid4 e) ->
  get_item_raises e' = None ->
  fst (route_index req e w) = redirect loc ->
  exists segment c a,
    loc = "/request/" ++ segment /\
    UUID.regex_match segment = true /\
    request_form req !! "customer" = Some c /\
    fst (route_request segment e' (snd (route_index req e w)))
    = render_template
        (order_html
           {| Item_id := segment; Item_customer := c; Item_amount := a |}).
Proof.
  intros Hu Hget H.
  destruct (redirect_inv req e w loc H)
    as (c & t & a & _ & Hc & _ & _ & _ & _ & _ & -> & Hdb).
  exists (UUID.str (uuid4 e)), c, a. split; [reflexivity|].
  split; [apply UUIDFacts.regex_match_str|]. split; [exact Hc|].
  apply (route_request_found _ (uuid4 e));
    [now apply UUIDFacts.to_python_str | done | exact Hdb].
Qed.

(** X3. A request to [/] never touches the orders stored under other
    identifiers than the one drawn for it, and never removes an order. *)
Theorem other_orders_untouched req e w k :
  (k <> UUID.str (uuid4 e) ->
   db_table (snd (route_index req e w)) !! k = db_table w !! k) /\
  (is_Some (db_table w !! k) ->
   is_Some (db_table (snd (route_index req e w)) !! k)).
Proof.
  destruct (route_index_table req e w) as [->|(c & a & ->)].
  - split; auto.
  - split.
    + intros Hk. now apply lookup_insert_ne.
    + intros Hs. destruct (decide (UUID.str (uuid4 e) = k)) as [->|Hne].
      * rewrite lookup_insert_eq. eauto.
      * now rewrite lookup_insert_ne.
Qed.

(** X4. The write is unconditional: when a submission draws an identifier
    the table already holds, the stored order is replaced, and a lookup of
    the identifier shows the new customer and amount. *)
Theorem same_identifier_overwrites req e e' w old c t a :
  db_table w !! UUID.str (uuid4 e) = Some old ->
  request_method req = POST ->
  request_form req !! "customer" = Some c ->
  request_form req !! "amount" = Some t ->
  PyFloat.float t = Some a ->
  PyFloat.lt a PyFloat.zero = false ->
  UUID.wf (uuid4 e) ->
  put_item_raises e = None ->
  get_item_raises e' = None ->
  fst (route_request (UUID.str (uuid4 e)) e' (snd (route_index req e w)))
  = render_template
      (order_html
         {| Item_id := UUID.str (uuid4 e);
            Item_customer := c; Item_amount := a |}) /\
  dom (db_table (snd (route_index req e w))) = dom (db_table w).
Proof.
  intros Hold Hm Hc Ht Ha Hlt Hu Hput Hget.
  rewrite (route_index_stores req e w c t a) by assumption. split.
  - apply (route_request_found _ (uuid4 e));
      [now apply UUIDFacts.to_python_str | done |].
    simpl. rewrite (route_index_stores req e w c t a) by assumption.
    apply lookup_insert_eq.
  - rewrite dom_insert_L.
    apply subseteq_union_1_L, singleton_subseteq_l, elem_of_dom. eauto.
Qed.

(** X5. A POST that lacks the [customer] field, or has it but lacks the
    [amount] field, is not answered with the form: the [except] clause reads
    a name that was never bound and the request ends in a server error. No
    backend is called. *)
Theorem missing_field_crashes req e w :
  request_method req = POST ->
  (request_form req !! "customer" = None ->
   route_index req e w
   = (InternalServerError (UnboundLocalError "customer"), w)) /\
  (is_Some (request_form req !! "customer") ->
   request_form req !! "amount" = None ->
   route_index req e w
   = (InternalServerError (UnboundLocalError "amount"), w)).
Proof.
  intros Hm. split.
  - now apply route_index_no_customer.
  - intros [c Hc]. now apply (route_index_no_amount req e w c).
Qed.

(** X6. The answers of [/]: the empty form; the form with the submitted
    customer and either the negative-amount message or the text for a
    failed backend call (the retry message, or the exception's own text
    when the backend raised a [ValueError]); the redirect to the new
    identifier; or a server error from an unbound [customer] or [amount].
    The text of the exception [float] raises never reaches the answer. *)
Theorem intake_answers req e w :
  let r := fst (route_index req e w) in
  r = render_template (index_html None (get_full_name e) (random_amount e))
  \/ (exists c a,
        request_form req !! "customer" = Some c /\
        (r = render_template (index_html (Some negative_message) c a)
         \/ exists ex,
              (put_item_raises e = Some ex \/ publish_raises e = Some ex) /\
              r = render_template (index_html (Some (error_text ex)) c a)))
  \/ r = redirect (url_for_request_page (UUID.str (uuid4 e)))
  \/ r = InternalServerError (UnboundLocalError "customer")
  \/ r = InternalServerError (UnboundLocalError "amount").
Proof.
  destruct (request_cases req)
    as [Hm|[[Hm Hc]|[(c & Hm & Hc & Ht)|(c & t & Hm & Hc & Ht)]]]; cbv zeta.
  - rewrite (route_index_get topic_arn float_repr) by done. now left.
  - rewrite route_index_no_customer by done. tauto.
  - rewrite (route_index_no_amount req e w c) by done. tauto.
  - rewrite (route_index_post req e w c t Hm Hc Ht).
    destruct (PyFloat.float t) as [a|]; [|tauto].
    destruct (PyFloat.lt a PyFloat.zero).
    { right. left. exists c, a. auto. }
    destruct (put_item_raises e) as [ex|] eqn:Hput.
    { right. left. exists c, a. split; [exact Hc|]. right. exists ex. auto. }
    destruct (publish_raises e) as [ex|] eqn:Hpub.
    { right. left. exists c, a. split; [exact Hc|]. right. exists ex. auto. }
    tauto.
Qed.

(** *** The lookup endpoint *)

(** X7. The answer of [/request/<segment>] in every case: no route for a
    segment outside the pattern; otherwise the fixed text with status 500
    when the read raises, the order stored under the segment in lower case
    when there is one, and status 404 naming that identifier when there is
    none. The endpoint itself never fails. *)
Theorem lookup_answers segment e w :
  fst (route_request segment e w) =
  if UUID.regex_match segment then
    match get_item_raises e with
    | Some _ =>
        body_status "Failed to retrieve order. Please try again later." 500
    | None =>
        match db_table w !! UUID.lower segment with
        | Some item => render_template (order_html item)
        | None =>
            body_status
              ("Order with ID " ++ UUID.lower segment ++ " not found.") 404
        end
    end
  else NotFound.
Proof.
  destruct (UUID.regex_match segment) eqn:Hm.
  - destruct (UUIDFacts.to_python_regex_match segment Hm) as (u & Hu & _ & Hs).
    rewrite <- Hs. run_monad. rewrite Hu. simpl.
    destruct (get_item_raises e); [reflexivity|].
    now destruct (db_table w !! UUID.str u).
  - unfold route_request. now rewrite (UUIDFacts.to_python_None _ Hm).
Qed.

(** X8. A lookup only reads: the table is unchanged, and the calls it adds
    are none, or the single [get_item] on the segment in lower case. *)
Theorem lookup_is_read_only segment e w :
  db_table (snd (route_request segment e w)) = db_table w /\
  (calls (snd (route_request segment e w)) = calls w
   \/ calls (snd (route_request segment e w))
      = (calls w ++ [GetItem (UUID.lower segment) (get_item_raises e)])%list).
Proof.
  destruct (UUID.regex_match segment) eqn:Hm.
  - destruct (UUIDFacts.to_python_regex_match segment Hm) as (u & Hu & _ & Hs).
    rewrite <- Hs. run_monad. rewrite Hu. simpl.
    destruct (get_item_raises e); [now split; [|right]|].
    destruct (db_table w !! UUID.str u); now split; [|right].
  - unfold route_request. rewrite (UUIDFacts.to_python_None _ Hm).
    now split; [|left].
Qed.

(** X9. The lookup does not depend on the letter case of the segment:
    a segment and its lower-case form get the same answer and leave the
    same state. *)
Theorem lookup_ignores_letter_case segment e w :
  route_request (UUID.lower segment) e w = route_request segment e w.
Proof. unfold route_request. now rewrite UUIDCase.to_python_lower. Qed.

End Endpoints.

(** ** Identifiers and their text *)
Module Identifiers.
Import UUID.

(** X10. The text of an identifier is accepted by the route's converter and
    read back as the same identifier; it is in lower case already, and two
    different identifiers have different texts. *)
Theorem identifier_round_trip u :
  wf u ->
  to_python (str u) = Some u /\
  lower (str u) = str u /\
  (forall v, wf v -> str v = str u -> v = u).
Proof.
  intros Hu. split; [now apply UUIDFacts.to_python_str|]. split.
  - destruct (UUIDFacts.to_python_regex_match (str u)
                (UUIDFacts.regex_match_str u)) as (v & Hv & _ & Hs).
    rewrite UUIDFacts.to_python_str in Hv by exact Hu.
    injection Hv as <-. now symmetry.
  - intros v Hv H. now apply UUIDCase.str_inj.
Qed.

(** X11. A path segment is accepted exactly when it matches the pattern;
    it then denotes an identifier below [2 ^ 128] whose text is the segment
    in lower case. *)
Theorem accepted_segment_denotes_identifier segment :
  (regex_match segment = true <-> is_Some (to_python segment)) /\
  (forall u, to_python segment = Some u -> wf u /\ str u = lower segment).
Proof.
  split; [split|].
  - intros Hm.
    destruct (UUIDFacts.to_python_regex_match segment Hm) as (u & Hu & _).
    eauto.
  - intros [u Hu]. unfold to_python in Hu.
    destruct (regex_match segment); [reflexivity | discriminate Hu].
  - intros u Hu.
    assert (Hm : regex_match segment = true).
    { unfold to_python in Hu.
      destruct (regex_match segment); [reflexivity | discriminate Hu]. }
    destruct (UUIDFacts.to_python_regex_match segment Hm) as (v & Hv & Hwf & Hs).
    rewrite Hu in Hv. injection Hv as <-. now split.
Qed.

End Identifiers.

(** ** The message body *)
Section Serialisation.
Import Json JsonRead.
Variable float_repr : spec_float -> string.

Lemma append_assoc (x y z : string) : (x ++ y) ++ z = x ++ (y ++ z).
Proof.
  induction x as [|a x IH]; [reflexivity|].
  change (String a ((x ++ y) ++ z) = String a (x ++ (y ++ z))).
  now rewrite IH.
Qed.

Lemma list_ascii_of_string_append (x y : string) :
  list_ascii_of_string (x ++ y)
  = (list_ascii_of_string x ++ list_ascii_of_string y)%list.
Proof.
  induction x as [|a x IH]; [reflexivity|].
  change (a :: list_ascii_of_string (x ++ y)
          = a :: (list_ascii_of_string x ++ list_ascii_of_string y))%list.
  now rewrite IH.
Qed.

Lemma read_char_escape_char a x : read_char (escape_char a ++ x) = Some (a, x).
Proof. destruct a as [[] [] [] [] [] [] [] []]; reflexivity. Qed.

Lemma read_char_quote r : read_char (quote ++ r) = None.
Proof. reflexivity. Qed.

(** An escaped text followed by the closing quote can be split in one way
    only. *)
Lemma escape_unambiguous c c' r r' :
  escape c ++ quote ++ r = escape c' ++ quote ++ r' -> c = c' /\ r = r'.
Proof.
  revert c'. induction c as [|a c IH]; intros [|a' c'] H.
  - split; [reflexivity|]. now apply (inj (String.append quote)) in H.
  - exfalso. cbn [escape] in H. rewrite append_assoc in H.
    apply (f_equal read_char) in H.
    rewrite read_char_escape_char in H. discriminate H.
  - exfalso. cbn [escape] in H. rewrite append_assoc in H.
    apply (f_equal read_char) in H.
    rewrite read_char_escape_char in H. discriminate H.
  - cbn [escape] in H. rewrite !append_assoc in H.
    apply (f_equal read_char) in H. rewrite !read_char_escape_char in H.
    injection H as -> H. destruct (IH c' H) as [-> ->]. now split.
Qed.

Lemma string_length_append (x y : string) :
  String.length (x ++ y) = (String.length x + String.length y)%nat.
Proof.
  induction x as [|a x IH]; [reflexivity|].
  change (S (String.length (x ++ y)) = S (String.length x + String.length y)).
  now rewrite IH.
Qed.

Lemma escape_char_length a : (1 <= String.length (escape_char a))%nat.
Proof. destruct a as [[] [] [] [] [] [] [] []]; vm_compute; lia. Qed.

Lemma escape_length c : (String.length c <= String.length (escape c))%nat.
Proof.
  induction c as [|a c IH]; [reflexivity|].
  cbn [escape]. rewrite string_length_append.
  pose proof (escape_char_length a). simpl. lia.
Qed.

Lemma read_string_fuel_escape_char a x f :
  read_string_fuel (S f) (escape_char a ++ x)
  = match read_string_fuel f x with
    | Some (txt, tail) => Some (String a txt, tail)
    | None => None
    end.
Proof. destruct a as [[] [] [] [] [] [] [] []]; reflexivity. Qed.

Lemma read_string_fuel_escape c r f :
  (String.length c < f)%nat ->
  read_string_fuel f (escape c ++ quote ++ r) = Some (c, r).
Proof.
  revert f. induction c as [|a c IH]; intros [|f] Hf; try (simpl in Hf; lia).
  - reflexivity.
  - cbn [escape]. rewrite append_assoc, read_string_fuel_escape_char.
    rewrite IH by (simpl in Hf; lia). reflexivity.
Qed.

(** An escaped text is read back up to the closing quote. *)
Lemma read_string_escape c r :
  read_string (escape c ++ quote ++ r) = Some (c, r).
Proof.
  apply read_string_fuel_escape. rewrite !string_length_append.
  pose proof (escape_length c). simpl. lia.
Qed.

Lemma escape_char_printable a :
  forallb printable (list_ascii_of_string (escape_char a)) = true.
Proof. destruct a as [[] [] [] [] [] [] [] []]; reflexivity. Qed.

(** The body of the notification: a fixed opening, the escaped customer,
    the closing quote, and the amount member. *)
Lemma message_shape c a :
  dumps float_repr [("customer", JString c); ("amount", JFloat a)]
  = ("{" ++ quote ++ "customer" ++ quote ++ ": " ++ quote)
      ++ escape c ++ quote
      ++ (", " ++ dumps_member float_repr ("amount", JFloat a) ++ "}").
Proof.
  unfold dumps. cbn [map join]. unfold dumps_member at 1. cbn [fst snd].
  cbn [dumps_value]. change (escape "customer") with "customer".
  now rewrite !append_assoc.
Qed.

(** X12. Whatever the customer text, its escaped form is made of the
    characters [' '] to ['~'] only. *)
Theorem escape_is_printable_ascii s :
  forallb printable (list_ascii_of_string (escape s)) = true.
Proof.
  induction s as [|a s IH]; [reflexivity|].
  cbn [escape]. rewrite list_ascii_of_string_append, forallb_app.
  now rewrite escape_char_printable, IH.
Qed.

(** X13. The body of the notification determines the customer: two
    submissions with different customer texts never give the same body,
    whatever the amounts. *)
Theorem message_determines_customer c c' a a' :
  c <> c' ->
  dumps float_repr [("customer", JString c); ("amount", JFloat a)]
  <> dumps float_repr [("customer", JString c'); ("amount", JFloat a')].
Proof.
  intros Hne H. rewrite !message_shape in H.
  apply (inj (String.append _)) in H.
  now destruct (escape_unambiguous _ _ _ _ H) as [Hc _].
Qed.

End Serialisation.

(** ** The notification *)
Section Notification.
Import Publisher Outcome.
Variable topic_arn : string.

Local Abbreviation q := Json.quote.

(** C9. For a submission that succeeds, with [repr] for the text of a
    float, the calls made are the table write and then one publish to the
    topic. Its message is the text of an object with the two members
    [customer] and [amount] and no other: the escaped customer, which reads
    back as the submitted customer, and the amount as [json.dumps] writes a
    float. Its attributes hold [amount] with data type [Number] and the
    text of the amount. Neither depends on the identifier of the order. *)
Theorem published_event_content req e w c t a :
  request_method req = POST ->
  request_form req !! "customer" = Some c ->
  request_form req !! "amount" = Some t ->
  PyFloat.float t = Some a ->
  PyFloat.lt a PyFloat.zero = false ->
  put_item_raises e = None ->
  publish_raises e = None ->
  let amount_text :=
    match a with
    | S754_nan => "NaN"
    | S754_infinity false => "Infinity"
    | S754_infinity true => "-Infinity"
    | _ => PyRepr.repr a
    end in
  let after_customer := ", " ++ q ++ "amount" ++ q ++ ": " ++ amount_text ++ "}" in
  exists p,
    calls (snd (route_index topic_arn PyRepr.repr req e w))
    = (calls w
       ++ [PutItem {| Item_id := UUID.str (uuid4 e);
                      Item_customer := c;
                      Item_amount := a |} None;
           Publish p None])%list /\
    TargetArn p = topic_arn /\
    Message p
    = "{" ++ q ++ "customer" ++ q ++ ": " ++ q ++ Json.escape c ++ q
        ++ after_customer /\
    JsonRead.read_string (Json.escape c ++ q ++ after_customer)
    = Some (c, after_customer) /\
    MessageAttributes p
    = [("amount", {| DataType := "Number"; StringValue := PyRepr.repr a |})].
Proof.
  intros Hm Hc Ht Ha Hlt Hput Hpub amount_text after_customer.
  rewrite (route_index_post topic_arn PyRepr.repr req e w c t Hm Hc Ht).
  rewrite Ha, Hlt, Hput, Hpub.
  eexists. split; [simpl; rewrite <- app_assoc; reflexivity|].
  split; [reflexivity|]. split; [|split; [apply read_string_escape|reflexivity]].
  cbn [Message notification]. rewrite message_shape.
  unfold Json.dumps_member. cbn [fst snd].
  change (Json.escape "amount") with "amount".
  rewrite !append_assoc. subst after_customer amount_text.
  now destruct a as [|[]| |].
Qed.

End Notification.

Module NotificationInstances.
Import Publisher Outcome Examples.

Local Abbreviation q := Json.quote.
Local Abbreviation forty_two_and_a_half :=
  (S754_finite false 5981343255101440 (-47)).

(** The notification of [submit("Jane Doe", 42.50)]. *)
Lemma published_event_content_witness :
  exists p,
    calls (snd (route_index arn PyRepr.repr (post "Jane Doe" "42.50") all_up
                  empty_world))
    = [PutItem {| Item_id := some_id;
                  Item_customer := "Jane Doe";
                  Item_amount := forty_two_and_a_half |} None;
       Publish p None] /\
    TargetArn p = arn /\
    Message p
    = "{" ++ q ++ "customer" ++ q ++ ": " ++ q ++ "Jane Doe" ++ q ++ ", "
        ++ q ++ "amount" ++ q ++ ": 42.5}" /\
    MessageAttributes p
    = [("amount", {| DataType := "Number"; StringValue := "42.5" |})].
Proof.
  destruct (published_event_content arn (post "Jane Doe" "42.50") all_up
              empty_world "Jane Doe" "42.50" forty_two_and_a_half)
    as (p & H1 & H2 & H3 & _ & H5); try (vm_compute; reflexivity).
  exists p. vm_compute in H1, H3, H5. vm_compute. auto.
Defined.

End NotificationInstances.

(** ** The sign of a parsed amount *)
Module PyFloatSign.
Import PyFloat.
Local Open Scope list_scope.

(** The floats that are [< 0]: minus infinity and the negative finite
    ones. NaN and both zeros are not. *)
Lemma lt_zero_iff a :
  lt a zero = true
  <-> a = S754_infinity true \/ exists m x, a = S754_finite true m x.
Proof.
  split.
  - destruct a as [s|[]| |[] m x]; try discriminate; eauto.
  - intros [->|(m & x & ->)]; reflexivity.
Qed.

Lemma binary_round_aux_sign sx m x l :
  lt (binary_round_aux prec emax sx m x l) zero = true -> sx = true.
Proof.
  unfold binary_round_aux.
  destruct (shr_fexp prec emax m x l) as [mrs' e'].
  destruct (shr_fexp prec emax _ e' loc_Exact) as [mrs'' e''].
  destruct (shr_m mrs'') as [|p|p]; [destruct sx; discriminate| |discriminate].
  destruct (Z.leb e'' (emax - prec)); destruct sx; auto; discriminate.
Qed.

Lemma float_of_decimal_sign neg m x :
  lt (float_of_decimal neg m x) zero = true -> neg = true.
Proof.
  unfold float_of_decimal. destruct (m =? 0)%Z.
  - destruct neg; discriminate.
  - destruct (SFdiv_core_binary _ _ _ _ _ _) as [[q e'] l].
    apply binary_round_aux_sign.
Qed.

Lemma parse_inf_or_nan_sign neg body a :
  parse_inf_or_nan neg body = Some a -> lt a zero = true -> neg = true.
Proof.
  unfold parse_inf_or_nan.
  destruct (_ || _).
  - intros [= <-]. destruct neg; [reflexivity | discriminate].
  - destruct (String.eqb _ _); [|discriminate]. intros [= <-]. discriminate.
Qed.

Lemma take_sign_true l body : take_sign l = (true, body) -> l = "-"%char :: body.
Proof.
  destruct l as [|c r]; [discriminate|].
  destruct c as [[] [] [] [] [] [] [] []]; cbn; intros [= <-]; reflexivity.
Qed.

Lemma lstrip_In x l : In x (lstrip l) -> In x l.
Proof.
  induction l as [|c l IH]; [auto|]. cbn [lstrip].
  destruct (is_space c); [right; auto | auto].
Qed.

Lemma strip_In x l : In x (strip l) -> In x l.
Proof.
  unfold strip. intros H. apply in_rev in H. apply lstrip_In in H.
  apply in_rev in H. now apply lstrip_In.
Qed.

Lemma drop_underscores_In x prev l l' :
  drop_underscores prev l = Some l' -> In x l' -> In x l.
Proof.
  revert prev l'. induction l as [|c l IH]; intros prev l' H Hx.
  - cbn in H. destruct prev as [p|].
    + destruct (Ascii.eqb_spec p "_"%char) as [->|Hne].
      * discriminate H.
      * assert (l' = []) as ->; [|destruct Hx].
        destruct p as [[] [] [] [] [] [] [] []]; cbn in H;
          first [now injection H | now elim Hne].
    + injection H as <-. destruct Hx.
  - cbn [drop_underscores] in H. destruct (Ascii.eqb c "_").
    + right. destruct prev as [p|]; [|discriminate H].
      destruct (is_digit p); [|discriminate H]. eapply IH; eauto.
    + match type of H with (if ?b then _ else _) = _ => destruct b end;
        [|discriminate H].
      destruct (drop_underscores (Some c) l) as [l''|] eqn:Hd;
        [|discriminate H].
      injection H as <-. destruct Hx as [->|Hx]; [now left|].
      right. eapply IH; eauto.
Qed.

(** A text that [float] reads as a float [< 0] contains a minus sign. *)
Lemma float_lt_zero_minus t a :
  float t = Some a -> lt a zero = true -> In "-"%char (list_ascii_of_string t).
Proof.
  unfold float. intros H Hlt.
  destruct (drop_underscores None (list_ascii_of_string t)) as [l|] eqn:Hd;
    [|discriminate H].
  destruct (take_sign (strip l)) as [neg body] eqn:Hs.
  assert (neg = true) as ->.
  { destruct (parse_decimal body) as [[m x]|].
    - injection H as <-. now apply float_of_decimal_sign in Hlt.
    - now apply (parse_inf_or_nan_sign neg body a). }
  apply take_sign_true in Hs.
  apply (drop_underscores_In _ None _ l Hd), strip_In.
  rewrite Hs. now left.
Qed.

End PyFloatSign.

(** ** The check on the amount *)
Section AmountCheck.
Import Publisher Outcome.
Variable topic_arn : string.
Variable float_repr : spec_float -> string.

Local Abbreviation route_index := (Publisher.route_index topic_arn float_repr).

(** An error text of a backend call is the negative-amount message only
    when the backend raised a [ValueError] with that very text. *)
Lemma error_text_negative ex :
  error_text ex = negative_message -> ex = ValueError negative_message.
Proof. destruct ex; simpl; intros H; try discriminate H. now rewrite H. Qed.

(** X14. For a POST with both fields whose amount parses, and backends
    that do not themselves raise a [ValueError] carrying the negative-amount
    message, the answer is the form with that message exactly when the
    parsed amount is minus infinity or a negative finite float; NaN, both
    zeros and plus infinity pass the check. *)
Theorem negative_check_exact req e w c t a :
  request_method req = POST ->
  request_form req !! "customer" = Some c ->
  request_form req !! "amount" = Some t ->
  PyFloat.float t = Some a ->
  put_item_raises e <> Some (ValueError negative_message) ->
  publish_raises e <> Some (ValueError negative_message) ->
  fst (route_index req e w)
  = render_template (index_html (Some negative_message) c a)
  <-> a = S754_infinity true \/ exists m x, a = S754_finite true m x.
Proof.
  intros Hm Hc Ht Ha Hput Hpub. rewrite <- PyFloatSign.lt_zero_iff.
  rewrite (route_index_post topic_arn float_repr req e w c t Hm Hc Ht), Ha.
  destruct (PyFloat.lt a PyFloat.zero); [now split|].
  split; [|discriminate].
  destruct (put_item_raises e) as [ex|].
  { intros [= H]. apply error_text_negative in H. now subst ex. }
  destruct (publish_raises e) as [ex|]; [|discriminate].
  intros [= H]. apply error_text_negative in H. now subst ex.
Qed.

(** X15. An amount is turned down as negative only if its text contains a
    minus sign: with backends that do not themselves raise a [ValueError]
    carrying the negative-amount message, whenever the answer is the form
    with that message, the submitted amount text has a ["-"] in it. *)
Theorem negative_rejection_needs_minus_sign req e w c a t :
  request_form req !! "amount" = Some t ->
  put_item_raises e <> Some (ValueError negative_message) ->
  publish_raises e <> Some (ValueError negative_message) ->
  fst (route_index req e w)
  = render_template (index_html (Some negative_message) c a) ->
  In "-"%char (list_ascii_of_string t).
Proof.
  intros Ht Hput Hpub H.
  destruct (request_method req) eqn:Hm.
  { rewrite (route_index_get topic_arn float_repr) in H by done.
    discriminate H. }
  destruct (request_form req !! "customer") as [c'|] eqn:Hc; cycle 1.
  { destruct (route_index_post_missing topic_arn float_repr req e w Hm)
      as [n Hn]; [auto|]. rewrite Hn in H. discriminate H. }
  rewrite (route_index_post topic_arn float_repr req e w c' t Hm Hc Ht) in H.
  destruct (PyFloat.float t) as [a'|] eqn:Ha; [|discriminate H].
  destruct (PyFloat.lt a' PyFloat.zero) eqn:Hlt.
  - now apply (PyFloatSign.float_lt_zero_minus t a').
  - exfalso. destruct (put_item_raises e) as [ex|].
    { injection H as H _ _. apply error_text_negative in H. now subst ex. }
    destruct (publish_raises e) as [ex|]; [|discriminate H].
    injection H as H _ _. apply error_text_negative in H. now subst ex.
Qed.

End AmountCheck.


(** ** Sequences of requests *)
Section Runs.
Import Publisher Outcome Server.
Variable topic_arn : string.
Variable float_repr : spec_float -> string.

Local Abbreviation route_index := (Publisher.route_index topic_arn float_repr).
Local Abbreviation handle := (Server.handle topic_arn float_repr).
Local Abbreviation run := (Server.run topic_arn float_repr).

Lemma route_request_table segment e w :
  db_table (snd (route_request segment e w)) = db_table w.
Proof.
  unfold route_request, serve, request_page, try_except, get_item, log_call,
    mbind, M_bind, mret, M_ret.
  destruct (UUID.to_python segment) as [u|]; [|reflexivity]. simpl.
  destruct (get_item_raises e); [reflexivity|].
  now destruct (db_table w !! UUID.str u).
Qed.

(** What one request does to the table. *)
Lemma handle_table i e w :
  db_table (snd (handle i e w)) = db_table w
  \/ exists req c a,
       i = to_index req /\
       db_table (snd (handle i e w))
       = <[UUID.str (uuid4 e) := order_item e c a]> (db_table w).
Proof.
  destruct i as [req|segment]; cbn [Server.handle].
  - destruct (route_index_table topic_arn float_repr req e w)
      as [H|(c & a & H)]; [now left|].
    right. now exists req, c, a.
  - left. apply route_request_table.
Qed.

Lemma handle_table_ok i e w :
  UUID.wf (uuid4 e) -> table_ok w -> table_ok (snd (handle i e w)).
Proof.
  intros Hu Hw. destruct (handle_table i e w) as [H|(req & c & a & _ & H)];
    intros k item; rewrite H; [apply Hw|].
  destruct (decide (UUID.str (uuid4 e) = k)) as [<-|Hne].
  - rewrite lookup_insert_eq. intros [= <-]. split; [reflexivity|]. eauto.
  - rewrite lookup_insert_ne by exact Hne. apply Hw.
Qed.

Lemma run_table_ok l w :
  Forall draws_identifier l -> table_ok w -> table_ok (run l w).
Proof.
  revert w. induction l as [|[i e] l IH]; intros w Hl Hw; [exact Hw|].
  apply Forall_cons in Hl as [He Hl]. cbn [Server.run].
  apply IH; [exact Hl|]. now apply handle_table_ok.
Qed.

(** X17. An order that was written stays retrievable: after any further
    requests served one after another, none of which draws the same
    identifier again, the table still holds the order and a lookup of its
    identifier shows it. *)
Theorem order_survives_later_requests req e e' w later c t a :
  request_method req = POST ->
  request_form req !! "customer" = Some c ->
  request_form req !! "amount" = Some t ->
  PyFloat.float t = Some a ->
  PyFloat.lt a PyFloat.zero = false ->
  put_item_raises e = None ->
  UUID.wf (uuid4 e) ->
  Forall draws_identifier later ->
  Forall (spares (uuid4 e)) later ->
  get_item_raises e' = None ->
  fst (route_request (UUID.str (uuid4 e)) e'
         (run later (snd (route_index req e w))))
  = render_template
      (order_html
         {| Item_id := UUID.str (uuid4 e);
            Item_customer := c; Item_amount := a |}).
Proof.
  intros Hm Hc Ht Ha Hlt Hput Hu Hwf Hsp Hget.
  apply (route_request_found _ (uuid4 e));
    [now apply UUIDFacts.to_python_str | done |].
  pose proof (route_index_stores topic_arn float_repr req e w c t a
                Hm Hc Ht Ha Hlt Hput) as Hdb.
  assert (H0 : db_table (snd (route_index req e w)) !! UUID.str (uuid4 e)
               = Some (order_item e c a))
    by (rewrite Hdb; apply lookup_insert_eq).
  clear Hdb. revert H0. generalize (snd (route_index req e w)) as w1.
  induction later as [|[i e1] later IH]; intros w1 H1; [exact H1|].
  apply Forall_cons in Hwf as [Hw1 Hwf]. apply Forall_cons in Hsp as [Hs1 Hsp].
  cbn [Server.run]. apply IH; [exact Hwf | exact Hsp |].
  destruct (handle_table i e1 w1) as [->|(req1 & c1 & a1 & -> & ->)];
    [exact H1|].
  rewrite lookup_insert_ne; [exact H1|].
  intros Heq. apply Hs1. now apply UUIDCase.str_inj.
Qed.

(** X18. Starting from an empty table, after any sequence of requests
    served one after another, every item of the table is stored under its
    own [id], and a lookup of that [id] shows exactly that item. *)
Theorem stored_orders_are_retrievable l w0 e k item :
  db_table w0 = ∅ ->
  Forall draws_identifier l ->
  db_table (run l w0) !! k = Some item ->
  get_item_raises e = None ->
  Item_id item = k /\
  fst (route_request k e (run l w0)) = render_template (order_html item).
Proof.
  intros H0 Hl Hk Hget.
  assert (Hok : table_ok (run l w0)).
  { apply run_table_ok; [exact Hl|]. intros k' item'. rewrite H0.
    now rewrite lookup_empty. }
  destruct (Hok k item Hk) as (Hid & u & Hu & ->). split; [exact Hid|].
  apply (route_request_found _ u); [now apply UUIDFacts.to_python_str|done|].
  exact Hk.
Qed.

End Runs.

(** ** The further properties on concrete requests *)
Module MoreInstances.
Import Publisher Outcome Server Examples MoreExamples.

Local Abbreviation forty_two_and_a_half :=
  (S754_finite false 5981343255101440 (-47)).
Local Abbreviation minus_five := (S754_finite true 5629499534213120 (-50)).

Ltac evaluate := vm_compute; reflexivity.

(** The redirect that answers [submit("Jane Doe", 42.50)]. *)
Lemma redirect_means_stored_and_published_witness :
  exists c t a,
    request_method (post "Jane Doe" "42.50") = POST /\
    request_form (post "Jane Doe" "42.50") !! "customer" = Some c /\
    request_form (post "Jane Doe" "42.50") !! "amount" = Some t /\
    PyFloat.float t = Some a /\
    PyFloat.lt a PyFloat.zero = false /\
    put_item_raises all_up = None /\
    publish_raises all_up = None /\
    "/request/3f703b4e-6f2a-4c1d-9b7e-2a5d8c4f1e6b"
    = url_for_request_page some_id /\
    db_table
      (snd (route_index arn repr (post "Jane Doe" "42.50") all_up empty_world))
      !! some_id
    = Some {| Item_id := some_id; Item_customer := c; Item_amount := a |}.
Proof.
  apply (redirect_means_stored_and_published arn repr
           (post "Jane Doe" "42.50") all_up empty_world
           "/request/3f703b4e-6f2a-4c1d-9b7e-2a5d8c4f1e6b").
  evaluate.
Defined.

Lemma redirect_target_shows_order_witness :
  exists segment c a,
    "/request/3f703b4e-6f2a-4c1d-9b7e-2a5d8c4f1e6b" = "/request/" ++ segment /\
    UUID.regex_match segment = true /\
    request_form (post "Jane Doe" "42.50") !! "customer" = Some c /\
    fst (route_request segment all_up
           (snd (route_index arn repr (post "Jane Doe" "42.50") all_up
                   empty_world)))
    = render_template
        (order_html
           {| Item_id := segment; Item_customer := c; Item_amount := a |}).
Proof.
  apply (redirect_target_shows_order arn repr (post "Jane Doe" "42.50")
           all_up all_up empty_world
           "/request/3f703b4e-6f2a-4c1d-9b7e-2a5d8c4f1e6b");
    evaluate.
Defined.

(** The same identifier drawn twice: the second order replaces the first. *)
Lemma same_identifier_overwrites_witness :
  fst (route_request some_id all_up
         (snd (route_index arn repr (post "John Doe" "10") all_up
                 (snd (route_index arn repr (post "Jane Doe" "42.50") all_up
                         empty_world)))))
  = render_template
      (order_html
         {| Item_id := some_id;
            Item_customer := "John Doe";
            Item_amount := S754_finite false 5629499534213120 (-49) |}).
Proof.
  apply (same_identifier_overwrites arn repr (post "John Doe" "10") all_up
           all_up
           (snd (route_index arn repr (post "Jane Doe" "42.50") all_up
                   empty_world))
           {| Item_id := some_id;
              Item_customer := "Jane Doe";
              Item_amount := forty_two_and_a_half |}
           "John Doe" "10" (S754_finite false 5629499534213120 (-49)));
    evaluate.
Defined.

(** A POST with only one of the two fields. *)
Lemma missing_field_crashes_witness :
  route_index arn repr (post_amount_only "42.50") all_up empty_world
  = (InternalServerError (UnboundLocalError "customer"), empty_world) /\
  route_index arn repr (post_customer_only "Jane Doe") all_up empty_world
  = (InternalServerError (UnboundLocalError "amount"), empty_world).
Proof.
  split.
  - apply (missing_field_crashes arn repr (post_amount_only "42.50") all_up
             empty_world); evaluate.
  - apply (missing_field_crashes arn repr (post_customer_only "Jane Doe")
             all_up empty_world); [evaluate | | evaluate].
    exists "Jane Doe". evaluate.
Defined.

Lemma identifier_round_trip_witness :
  UUID.to_python some_id = Some some_uuid /\ UUID.lower some_id = some_id.
Proof.
  destruct (Identifiers.identifier_round_trip some_uuid) as (H1 & H2 & _);
    [evaluate|].
  split; [exact H1 | exact H2].
Defined.

Lemma message_determines_customer_witness :
  Json.dumps repr
    [("customer", Json.JString "Jane Doe");
     ("amount", Json.JFloat forty_two_and_a_half)]
  <> Json.dumps repr
       [("customer", Json.JString "John Doe");
        ("amount", Json.JFloat forty_two_and_a_half)].
Proof.
  apply (message_determines_customer repr "Jane Doe" "John Doe").
  intros H. discriminate H.
Defined.

Lemma negative_check_exact_witness :
  fst (route_index arn repr (post "John Doe" "-5.0") all_up empty_world)
  = render_template (index_html (Some negative_message) "John Doe" minus_five)
  <-> minus_five = S754_infinity true
      \/ exists m x, minus_five = S754_finite true m x.
Proof.
  apply (negative_check_exact arn repr (post "John Doe" "-5.0") all_up
           empty_world "John Doe" "-5.0" minus_five);
    first [evaluate | intros H; discriminate H].
Defined.

Lemma negative_rejection_needs_minus_sign_witness :
  In "-"%char (list_ascii_of_string "-5.0").
Proof.
  apply (negative_rejection_needs_minus_sign arn repr
           (post "John Doe" "-5.0") all_up empty_world "John Doe" minus_five
           "-5.0");
    first [evaluate | intros H; discriminate H].
Defined.

(** Why X14 and X15 need their condition on the backends: a table write
    that raises a [ValueError] with the negative-amount message gives the
    same answer as the check, for an amount without a minus sign. *)
Example negative_message_from_backend :
  fst (route_index arn repr (post "John Doe" "10")
         {| uuid4 := some_uuid;
            put_item_raises := Some (ValueError negative_message);
            publish_raises := None;
            get_item_raises := None;
            get_full_name := "Jane Doe";
            random_amount := S754_zero false |}
         empty_world)
  = render_template
      (index_html (Some negative_message) "John Doe"
         (S754_finite false 5629499534213120 (-49))).
Proof. vm_compute. reflexivity. Qed.

(** The first order after a second submission and a malformed lookup. *)
Lemma order_survives_later_requests_witness :
  fst (route_request some_id all_up
         (run arn repr later_requests
            (snd (route_index arn repr (post "Jane Doe" "42.50") all_up
                    empty_world))))
  = render_template
      (order_html
         {| Item_id := some_id;
            Item_customer := "Jane Doe";
            Item_amount := forty_two_and_a_half |}).
Proof.
  apply (order_survives_later_requests arn repr (post "Jane Doe" "42.50")
           all_up all_up empty_world later_requests "Jane Doe" "42.50"
           forty_two_and_a_half);
    [evaluate | evaluate | evaluate | evaluate | evaluate | evaluate
    | evaluate | | | evaluate].
  - repeat constructor; unfold draws_identifier; cbn [snd]; evaluate.
  - repeat constructor. unfold spares. cbn [fst snd].
    intros H. discriminate H.
Defined.

Lemma stored_orders_are_retrievable_witness :
  Item_id
    {| Item_id := other_id;
       Item_customer := "John Doe";
       Item_amount := S754_finite false 5629499534213120 (-49) |}
  = other_id /\
  fst (route_request other_id all_up
         (run arn repr
            ((to_index (post "Jane Doe" "42.50"), all_up) :: later_requests)
            empty_world))
  = render_template
      (order_html
         {| Item_id := other_id;
            Item_customer := "John Doe";
            Item_amount := S754_finite false 5629499534213120 (-49) |}).
Proof.
  apply (stored_orders_are_retrievable arn repr
           ((to_index (post "Jane Doe" "42.50"), all_up) :: later_requests)
           empty_world all_up other_id);
    [reflexivity | | evaluate | evaluate].
  repeat constructor; unfold draws_identifier; cbn [snd]; evaluate.
Defined.

End MoreInstances.
